(** * Recruitment tasks: FizzBuzz and the valuation service

    A shallow embedding of the two Python scripts of the repository,
    [Task_1_FizzBuzz/main.py] and [Task_2_Valuation_service/main.py],
    and the properties of them that the specification states.

    Python values are modelled as the interpreter has them: [int] is [Z],
    [float] is the IEEE 754 binary64 type of the kernel ([PrimFloat.float]),
    [str] is [string], a [dict] with string keys is a [gmap string _], a
    [list] is a [list].  Exceptions are values of [exn]; objects that the
    code creates, passes around and updates in place live in a heap. *)

From Stdlib Require Import ZArith Floats Ascii.
From stdpp Require Import base option list sorting gmap strings pretty.

Open Scope Z_scope.

(** ** Task 1: FizzBuzz *)

Module FizzBuzz.

(** Standard output, one entry per printed line. *)
Definition stdout := list string.

(** [print(x)]: one more line at the end of the output. *)
Definition print (line : string) (out : stdout) : stdout := out ++ [line].

(** [range(a, b)]: the integers from [a] up to, not including, [b]. *)
Definition range (a b : Z) : list Z :=
  (λ i : nat, a + Z.of_nat i) <$> seq 0 (Z.to_nat (b - a)).

(** The body of the loop.  Python's [%] with a positive divisor is [Z.modulo];
    [print(num)] writes the decimal numeral of the integer. *)
Definition fizzbuzz_body (num : Z) (out : stdout) : stdout :=
  if bool_decide (num mod 3 = 0) && bool_decide (num mod 5 = 0) then print "FizzBuzz" out
  else if bool_decide (num mod 3 = 0) then print "Fizz" out
  else if bool_decide (num mod 5 = 0) then print "Buzz" out
  else print (pretty num) out.

(** [fizzbuzz(a, b)]: [for num in range(a, b + 1): ...]. *)
Definition fizzbuzz (a b : Z) (out : stdout) : stdout :=
  foldl (λ out num, fizzbuzz_body num out) out (range a (b + 1)).

(** What the line printed for [num] has to be, in terms of divisibility. *)
Definition fizzbuzz_line (num : Z) (line : string) : Prop :=
  ((3 | num) ∧ (5 | num) ∧ line = "FizzBuzz") ∨
  ((3 | num) ∧ ¬ (5 | num) ∧ line = "Fizz") ∨
  (¬ (3 | num) ∧ (5 | num) ∧ line = "Buzz") ∨
  (¬ (3 | num) ∧ ¬ (5 | num) ∧ line = pretty num).

(** *** The script (lines 13 to 18) *)

(** The rest of the script: [n = int(input())], [m = int(input())],
    [fizzbuzz(n, m)].  Standard input is the list of its lines; [input()]
    takes the first one, and raises [EOFError] when there is none. *)
Inductive script_error :=
| EOFError
| ValueError.

Section script.

(** The built-in [int] applied to a line: the integer, or nothing for
    [ValueError]. *)
Variable py_int : string → option Z.

Definition script (stdin : list string) (out : stdout) : option script_error * stdout :=
  match stdin with
  | [] => (Some EOFError, out)
  | line1 :: stdin =>
      match py_int line1 with
      | None => (Some ValueError, out)
      | Some n =>
          match stdin with
          | [] => (Some EOFError, out)
          | line2 :: _ =>
              match py_int line2 with
              | None => (Some ValueError, out)
              | Some m => (None, fizzbuzz n m out)
              end
          end
      end
  end.

End script.

End FizzBuzz.

(** ** Task 2: the valuation service *)

Module Valuation.

(** *** Exceptions *)

(** The built-in exceptions the script can raise. *)
Inductive exn :=
| ZeroDivisionError
| IndexError
| KeyError
| OverflowError
| ValueError
| TypeError.

(** The outcome of evaluating an expression: a value, or a raised exception. *)
Inductive outcome (A : Type) :=
| Return (a : A)
| Raise (e : exn).
Arguments Return {A} a.
Arguments Raise {A} e.

#[global] Instance outcome_ret : MRet outcome := @Return.
#[global] Instance outcome_bind : MBind outcome :=
  λ A B f m, match m with Return a => f a | Raise e => Raise e end.
#[global] Instance outcome_fmap : FMap outcome :=
  λ A B f m, match m with Return a => Return (f a) | Raise e => Raise e end.

(** *** Numbers *)

(** A Python number as the script has them: an [int] or a [float]. *)
Inductive pynum :=
| PyInt (n : Z)
| PyFloat (x : float).

(** The conversion of an [int] to a [float] that mixed arithmetic applies to
    its [int] operand: the nearest binary64 value, ties to even, and
    [OverflowError] when that is not a finite number. *)
Definition int_to_float (n : Z) : outcome float :=
  let x := SF2Prim (binary_normalize prec emax n 0 false) in
  if is_infinity x then Raise OverflowError else Return x.

(** [x * n] for a float [x] and an int [n]. *)
Definition float_mul_int (x : float) (n : Z) : outcome float :=
  y ← int_to_float n; mret (x * y)%float.

(** [a + x] for a number [a] and a float [x]. *)
Definition num_add_float (a : pynum) (x : float) : outcome float :=
  match a with
  | PyInt n => y ← int_to_float n; mret (y + x)%float
  | PyFloat y => mret (y + x)%float
  end.

(** [a * x] for a number [a] and a float [x]. *)
Definition num_mul_float (a : pynum) (x : float) : outcome float :=
  match a with
  | PyInt n => y ← int_to_float n; mret (y * x)%float
  | PyFloat y => mret (y * x)%float
  end.

(** [a / b] for two ints: the quotient rounded once to the nearest binary64
    value.  The quotient is computed with more than 55 significant bits and a
    sticky bit, then rounded by [binary_normalize]; a zero quotient takes the
    sign of the operands. *)
Definition int_truediv (a b : Z) : outcome float :=
  if bool_decide (b = 0) then Raise ZeroDivisionError else
  let negative := xorb (a <? 0) (b <? 0) in
  let k := Z.max 0 (Z.log2 (Z.abs b) + 56 - Z.log2 (Z.abs a)) in
  let q := (Z.abs a * 2 ^ k) `div` Z.abs b in
  let r := (Z.abs a * 2 ^ k) `mod` Z.abs b in
  let m := 2 * q + (if bool_decide (r = 0) then 0 else 1) in
  let x := SF2Prim (binary_normalize prec emax (if negative then - m else m) (- k - 1) negative) in
  if is_infinity x then Raise OverflowError else Return x.

(** [a / b] for a number [a] and an int [b].  A zero divisor raises
    [ZeroDivisionError]; a float dividend converts the divisor first. *)
Definition num_truediv (a : pynum) (b : Z) : outcome float :=
  match a with
  | PyInt n => int_truediv n b
  | PyFloat x =>
      if bool_decide (b = 0) then Raise ZeroDivisionError
      else y ← int_to_float b; mret (x / y)%float
  end.

(** [sum(f(a) for a in l)]: the generator is consumed from left to right, each
    item added to the running total, which starts as the int [0].  (This is
    the sum as the language reference states it and as CPython computes it up
    to version 3.11; later versions add a compensation term to a sum of
    floats, which can change the last bit of an inexact total.) *)
Fixpoint sum_from {A} (f : A → outcome float) (acc : pynum) (l : list A) : outcome pynum :=
  match l with
  | [] => mret acc
  | a :: l => x ← f a; s ← num_add_float acc x; sum_from f (PyFloat s) l
  end.

Definition py_sum {A} (f : A → outcome float) (l : list A) : outcome pynum :=
  sum_from f (PyInt 0) l.

(** *** Lists and dicts *)

(** [l[0]]. *)
Definition getitem0 {A} (l : list A) : outcome A :=
  match l with
  | [] => Raise IndexError
  | a :: _ => Return a
  end.

(** [l[:n]]: a negative [n] counts from the end, and the bounds are clipped. *)
Definition slice_to {A} (l : list A) (n : Z) : list A :=
  if bool_decide (n < 0) then take (Z.to_nat (Z.of_nat (length l) + n)) l
  else take (Z.to_nat n) l.

(** [d[k]]. *)
Definition dict_getitem {V} (d : gmap string V) (k : string) : outcome V :=
  match d !! k with
  | Some v => Return v
  | None => Raise KeyError
  end.

(** [list.sort(key=..., reverse=True)]: the keys are computed first, one call
    per element, from left to right; the sort compares keys with [<] only,
    puts greater keys first and is stable, so that elements of which neither
    key is less than the other keep their order.  On keys that [<] orders
    (floats other than NaN) this determines the result, which is computed
    here by insertion from the right.  With a NaN among the keys [<] is not an
    order and what CPython returns depends on the runs its merge sort finds;
    the insertion gives the same list whenever no element of the reversed
    list is less than its predecessor, since the list is then a single run
    and is left as it is. *)
Fixpoint insert_desc {A} (k : float) (a : A) (l : list (float * A)) : list (float * A) :=
  match l with
  | [] => [(k, a)]
  | (k', a') :: l' =>
      if (k <? k')%float then (k', a') :: insert_desc k a l' else (k, a) :: l
  end.

Definition sort_desc {A} (l : list (float * A)) : list (float * A) :=
  foldr (λ ka acc, insert_desc ka.1 ka.2 acc) [] l.

Definition list_sort_reverse {A} (key : A → outcome float) (l : list A) : outcome (list A) :=
  ks ← mapM key l; mret ((sort_desc (zip ks l)).*2).

(** *** The data model *)

(** A row of [data.csv] as [load_data] builds it. *)
Record product := Product {
  p_id : Z;
  p_price : float;
  p_currency : string;
  p_quantity : Z;
  p_matching_id : Z
}.

(** A row of [matchings.csv] as [load_matchings] builds it. *)
Record matching := Matching {
  m_matching_id : Z;
  m_top_priced_count : Z
}.

(** A result as [calculate_valuation] builds it.  [total_price] is whatever
    number the computation left in the variable. *)
Record valuation_result := ValuationResult {
  r_matching_id : Z;
  r_total_price : pynum;
  r_avg_price : float;
  r_currency : string;
  r_ignored_products_count : Z
}.

(** The sort key, [x['price'] * x['quantity']]. *)
Definition ext_price (x : product) : outcome float :=
  float_mul_int (p_price x) (p_quantity x).

(** *** One group, on values

    The body of the loop of [calculate_valuation] (lines 103 to 127) as a
    function of the contents of [data] and [currencies]. *)

Definition group_valuation (data : list product) (currencies : gmap string float)
    (matching : matching) : outcome valuation_result :=
  let matching_id := m_matching_id matching in
  let top_priced_count := m_top_priced_count matching in
  let products := filter (λ product, p_matching_id product = matching_id) data in
  products ← list_sort_reverse ext_price products;
  let top_products := slice_to products top_priced_count in
  let ignored_products_count := Z.of_nat (length products) - top_priced_count in
  total_price ← py_sum ext_price top_products;
  avg_price ← num_truediv total_price top_priced_count;
  first ← getitem0 top_products;
  let currency := p_currency first in
  if bool_decide (currency ≠ "PLN") then
    ratio ← dict_getitem currencies currency;
    total_price ← num_mul_float total_price ratio;
    let avg_price := (avg_price * ratio)%float in
    mret (ValuationResult matching_id (PyFloat total_price) avg_price "PLN"
            ignored_products_count)
  else
    mret (ValuationResult matching_id total_price avg_price currency
            ignored_products_count).

(** *** Objects and the heap

    The lists and the dict that the functions receive, create and update are
    objects at locations of a heap; a variable holds a location.  The product,
    matching and result dicts are never written to after they are built, so
    they are kept as values inside the list that holds them. *)

Definition loc := positive.

Inductive obj :=
| ProductList (l : list product)
| MatchingList (l : list matching)
| CurrencyDict (d : gmap string float)
| ResultList (l : list valuation_result).

(** A written CSV file: the header row and the records below it. *)
Record csv_file := CsvFile {
  csv_header : list string;
  csv_rows : list valuation_result
}.

Record world := World {
  heap : gmap loc obj;
  files : gmap string csv_file
}.

(** Statements: they read and write the world, and return or raise. *)
Definition M (A : Type) : Type := world → outcome A * world.

#[global] Instance M_ret : MRet M := λ A a w, (Return a, w).
#[global] Instance M_bind : MBind M :=
  λ A B f m w, match m w with
               | (Return a, w') => f a w'
               | (Raise e, w') => (Raise e, w')
               end.

Definition lift {A} (o : outcome A) : M A := λ w, (o, w).

(** A new object, at a location that is not in use. *)
Definition alloc (o : obj) : M loc :=
  λ w, let l := fresh (dom (heap w)) in
       (Return l, World (<[l := o]> (heap w)) (files w)).

Definition load (l : loc) : M obj :=
  λ w, match heap w !! l with
       | Some o => (Return o, w)
       | None => (Raise TypeError, w)
       end.

(** An update of the object at [l], in place. *)
Definition store (l : loc) (o : obj) : M unit :=
  λ w, (Return (), World (<[l := o]> (heap w)) (files w)).

Definition read_products (l : loc) : M (list product) :=
  o ← load l; match o with ProductList ps => mret ps | _ => lift (Raise TypeError) end.

Definition read_matchings (l : loc) : M (list matching) :=
  o ← load l; match o with MatchingList ms => mret ms | _ => lift (Raise TypeError) end.

Definition read_currencies (l : loc) : M (gmap string float) :=
  o ← load l; match o with CurrencyDict d => mret d | _ => lift (Raise TypeError) end.

Definition read_results (l : loc) : M (list valuation_result) :=
  o ← load l; match o with ResultList rs => mret rs | _ => lift (Raise TypeError) end.

(** [for x in l: body(x)], over the elements the list has when the loop starts
    (no body below writes to the list it iterates over). *)
Fixpoint for_each {A} (body : A → M unit) (l : list A) : M unit :=
  match l with
  | [] => mret ()
  | x :: l => body x;; for_each body l
  end.

(** *** calculate_valuation *)

(** The body of the loop: [products] is a new list, sorted in place;
    [top_products] is a new list; the result is appended to
    [valuation_results]. *)
Definition valuation_body (data currencies valuation_results : loc)
    (matching : matching) : M unit :=
  let matching_id := m_matching_id matching in
  let top_priced_count := m_top_priced_count matching in
  ds ← read_products data;
  products ← alloc (ProductList (filter (λ product, p_matching_id product = matching_id) ds));
  ps ← read_products products;
  sorted ← lift (list_sort_reverse ext_price ps);
  store products (ProductList sorted);;
  ps ← read_products products;
  top_products ← alloc (ProductList (slice_to ps top_priced_count));
  ps ← read_products products;
  let ignored_products_count := Z.of_nat (length ps) - top_priced_count in
  tops ← read_products top_products;
  total_price ← lift (py_sum ext_price tops);
  avg_price ← lift (num_truediv total_price top_priced_count);
  tops ← read_products top_products;
  first ← lift (getitem0 tops);
  let currency := p_currency first in
  result ← (if bool_decide (currency ≠ "PLN") then
              cs ← read_currencies currencies;
              ratio ← lift (dict_getitem cs currency);
              total_price ← lift (num_mul_float total_price ratio);
              let avg_price := (avg_price * ratio)%float in
              mret (ValuationResult matching_id (PyFloat total_price) avg_price "PLN"
                      ignored_products_count)
            else
              mret (ValuationResult matching_id total_price avg_price currency
                      ignored_products_count));
  rs ← read_results valuation_results;
  store valuation_results (ResultList (rs ++ [result])).

(** [calculate_valuation(data, matchings, currencies)]: returns the list it
    built. *)
Definition calculate_valuation (data matchings currencies : loc) : M loc :=
  valuation_results ← alloc (ResultList []);
  ms ← read_matchings matchings;
  for_each (valuation_body data currencies valuation_results) ms;;
  mret valuation_results.

(** *** The result writer and the end of the script *)

Definition fieldnames : list string :=
  ["matching_id"; "total_price"; "avg_price"; "currency"; "ignored_products_count"].

(** The file at [file_path] opened for writing, which replaces what it held,
    written and closed. *)
Definition write_file (file_path : string) (f : csv_file) : M unit :=
  λ w, (Return (), World (heap w) (<[file_path := f]> (files w))).

(** [save_results(file_path, results)]: the header and one row per result. *)
Definition save_results (file_path : string) (results : loc) : M unit :=
  rs ← read_results results;
  write_file file_path (CsvFile fieldnames rs).

(** Lines 229 to 233 of the script: the results are computed, then saved. *)
Definition calculate_and_save (data matchings currencies : loc) : M unit :=
  results ← calculate_valuation data matchings currencies;
  save_results "top_products.csv" results.

(** *** The data loader

    The loaders, from the rows that [csv.DictReader] yields: one dict from
    column name to text per line of the file.  Opening and reading the file
    is left out. *)

Section loaders.

(** The built-ins [int] and [float] applied to a string: the number it
    denotes, or [ValueError]. *)
Variable py_int : string → outcome Z.
Variable py_float : string → outcome float.

(** [row[name]] for a row of [csv.DictReader]. *)
Definition row_getitem (row : gmap string string) (name : string) : outcome string :=
  dict_getitem row name.

(** [load_data], from the rows that the reader yields: the fields are
    converted in the order of the dict display, and the products are appended
    to the list in the order of the rows. *)
Definition load_data_row (row : gmap string string) : outcome product :=
  id ← row_getitem row "id" ≫= py_int;
  price ← row_getitem row "price" ≫= py_float;
  currency ← row_getitem row "currency";
  quantity ← row_getitem row "quantity" ≫= py_int;
  matching_id ← row_getitem row "matching_id" ≫= py_int;
  mret (Product id price currency quantity matching_id).

Definition load_data (rows : list (gmap string string)) : outcome (list product) :=
  mapM load_data_row rows.

(** [load_currencies]: a later row for a code replaces an earlier one. *)
Definition load_currencies_row (currencies : gmap string float)
    (row : gmap string string) : outcome (gmap string float) :=
  currency ← row_getitem row "currency";
  ratio ← row_getitem row "ratio" ≫= py_float;
  mret (<[currency := ratio]> currencies).

Fixpoint load_currencies_from (currencies : gmap string float)
    (rows : list (gmap string string)) : outcome (gmap string float) :=
  match rows with
  | [] => mret currencies
  | row :: rows => currencies ← load_currencies_row currencies row;
                   load_currencies_from currencies rows
  end.

Definition load_currencies (rows : list (gmap string string)) : outcome (gmap string float) :=
  load_currencies_from ∅ rows.

(** [load_matchings]. *)
Definition load_matchings_row (row : gmap string string) : outcome matching :=
  matching_id ← row_getitem row "matching_id" ≫= py_int;
  top_priced_count ← row_getitem row "top_priced_count" ≫= py_int;
  mret (Matching matching_id top_priced_count).

Definition load_matchings (rows : list (gmap string string)) : outcome (list matching) :=
  mapM load_matchings_row rows.

End loaders.

(** *** The two stages of a group

    The body of the loop, cut before the conversion. *)

(** Lines 106 to 114: the ranked products, the first product of the top set,
    and the total and the average before any conversion. *)
Definition pre_conversion (data : list product) (matching : matching) :
    outcome (list product * product * pynum * float) :=
  let products := filter (λ product, p_matching_id product = m_matching_id matching) data in
  products ← list_sort_reverse ext_price products;
  let top_products := slice_to products (m_top_priced_count matching) in
  total_price ← py_sum ext_price top_products;
  avg_price ← num_truediv total_price (m_top_priced_count matching);
  first ← getitem0 top_products;
  mret (products, first, total_price, avg_price).

(** Lines 115 to 127: the conversion and the result. *)
Definition converted (currencies : gmap string float) (matching : matching)
    (products : list product) (first : product) (total_price : pynum) (avg_price : float) :
    outcome valuation_result :=
  let ignored_products_count :=
    Z.of_nat (length products) - m_top_priced_count matching in
  if bool_decide (p_currency first ≠ "PLN") then
    ratio ← dict_getitem currencies (p_currency first);
    total_price ← num_mul_float total_price ratio;
    mret (ValuationResult (m_matching_id matching) (PyFloat total_price)
            (avg_price * ratio)%float "PLN" ignored_products_count)
  else
    mret (ValuationResult (m_matching_id matching) total_price avg_price
            (p_currency first) ignored_products_count).

(** *** Notions that the properties use *)

(** Two keyed elements are in order when the second key is not greater. *)
Definition key_ge {A} (x y : float * A) : Prop := (x.1 <? y.1)%float = false.


(** A list of elements paired with their keys. *)
Definition keyed {A} (key : A → outcome float) (z : list (float * A)) : Prop :=
  Forall (λ x, key x.2 = Return x.1) z.


(** Descending order of extended price: the price of a product is not
    smaller than the price of any product listed after it. *)
Definition descending (products : list product) : Prop :=
  ∀ (i j : nat) x y kx ky,
    (i < j)%nat → products !! i = Some x → products !! j = Some y →
    ext_price x = Return kx → ext_price y = Return ky →
    (ky <=? kx)%float = true.


(** [m] does not write to the objects at the locations of [D], nor to any
    file, however it ends. *)
Definition preserves (D : gset loc) {A} (m : M A) : Prop :=
  ∀ w, D ⊆ dom (heap w) →
    files (m w).2 = files w ∧ ∀ l, l ∈ D → heap (m w).2 !! l = heap w !! l.


(** *** Numerals

    [int] and [float] on the numerals that the input files of the script
    hold: an optional minus sign, digits, and for [float] an optional point
    with the digits after it; the float is the nearest one, as [float]
    returns it.  Any other string is rejected here (the built-ins accept
    more: blanks around the numeral, a plus sign, an exponent). *)

Definition digit (c : ascii) : option Z :=
  let n := Z.of_N (N_of_ascii c) in
  if bool_decide (48 ≤ n ≤ 57) then Some (n - 48) else None.

(** The digits at the start of [s], read after [acc]; how many they are, after
    [count]; and the rest of [s]. *)
Fixpoint digits (acc : Z) (count : Z) (s : string) : option (Z * Z * string) :=
  match s with
  | String c s' =>
      match digit c with
      | Some d => digits (10 * acc + d) (count + 1) s'
      | None => Some (acc, count, s)
      end
  | EmptyString => Some (acc, count, s)
  end.

Definition unsigned (s : string) : string :=
  match s with
  | String "-"%char s' => s'
  | _ => s
  end.

Definition negative (s : string) : bool :=
  match s with
  | String "-"%char _ => true
  | _ => false
  end.

Definition int_of_numeral (s : string) : outcome Z :=
  match digits 0 0 (unsigned s) with
  | Some (n, count, EmptyString) =>
      if bool_decide (0 < count) then Return (if negative s then - n else n)
      else Raise ValueError
  | _ => Raise ValueError
  end.

(** The value of [n / 10 ^ d], rounded once. *)
Definition decimal_float (n d : Z) : float :=
  match int_truediv n (10 ^ d) with
  | Return x => x
  | Raise _ => infinity
  end.

Definition float_of_numeral (s : string) : outcome float :=
  match digits 0 0 (unsigned s) with
  | Some (n, count, rest) =>
      if bool_decide (0 < count) then
        let sign x := if negative s then (- x)%float else x in
        match rest with
        | EmptyString => Return (sign (decimal_float n 0))
        | String "."%char rest =>
            match digits n 0 rest with
            | Some (n, d, EmptyString) => Return (sign (decimal_float n d))
            | _ => Raise ValueError
            end
        | _ => Raise ValueError
        end
      else Raise ValueError
  | None => Raise ValueError
  end.

(** *** The input files of the script *)

Definition data_row (id price currency quantity matching_id : string) : gmap string string :=
  {[ "id" := id; "price" := price; "currency" := currency;
     "quantity" := quantity; "matching_id" := matching_id ]}.

(** The rows that [create_input_files] writes. *)
Definition fixture_currency_rows : list (gmap string string) :=
  [ {[ "currency" := "GBP"; "ratio" := "2.4" ]};
    {[ "currency" := "EU"; "ratio" := "2.1" ]};
    {[ "currency" := "PLN"; "ratio" := "1.0" ]} ].

Definition fixture_data_rows : list (gmap string string) :=
  [ data_row "1" "1000" "GBP" "2" "3";
    data_row "2" "1050" "EU" "1" "1";
    data_row "3" "2000" "PLN" "1" "1";
    data_row "4" "1750" "EU" "2" "2";
    data_row "5" "1400" "EU" "4" "3";
    data_row "6" "7000" "PLN" "3" "2";
    data_row "7" "630" "GBP" "5" "3";
    data_row "8" "4000" "EU" "1" "3";
    data_row "9" "1400" "GBP" "3" "1" ].

Definition fixture_matching_rows : list (gmap string string) :=
  [ {[ "matching_id" := "1"; "top_priced_count" := "2" ]};
    {[ "matching_id" := "2"; "top_priced_count" := "2" ]};
    {[ "matching_id" := "3"; "top_priced_count" := "3" ]} ].

(** What the loaders make of them; 2.4 and 2.1 are the nearest floats. *)
Definition fixture_currencies : gmap string float :=
  {[ "GBP" := 0x1.3333333333333p+1%float;
     "EU" := 0x1.0cccccccccccdp+1%float;
     "PLN" := 1%float ]}.

Definition fixture_data : list product :=
  [ Product 1 1000 "GBP" 2 3;
    Product 2 1050 "EU" 1 1;
    Product 3 2000 "PLN" 1 1;
    Product 4 1750 "EU" 2 2;
    Product 5 1400 "EU" 4 3;
    Product 6 7000 "PLN" 3 2;
    Product 7 630 "GBP" 5 3;
    Product 8 4000 "EU" 1 3;
    Product 9 1400 "GBP" 3 1 ].

Definition fixture_matchings : list matching :=
  [ Matching 1 2; Matching 2 2; Matching 3 3 ].

(** A heap with a product list, a matching list and a currency dict at three
    locations, and no file. *)
Definition l_data : loc := 1%positive.
Definition l_matchings : loc := 2%positive.
Definition l_currencies : loc := 3%positive.

Definition world_of (data : list product) (matchings : list matching)
    (currencies : gmap string float) : world :=
  World {[ l_data := ProductList data;
           l_matchings := MatchingList matchings;
           l_currencies := CurrencyDict currencies ]} ∅.

Definition fixture_world : world :=
  world_of fixture_data fixture_matchings fixture_currencies.

(** The results of the script on its own input. *)
Definition fixture_results : list valuation_result :=
  [ ValuationResult 1 (PyFloat 14880) 7440 "PLN" 1;
    ValuationResult 2 (PyFloat 24500) 12250 "PLN" 0;
    ValuationResult 3 (PyFloat 26775) 8925 "PLN" 1 ].

(** The third group of the script as it is ranked: products 5, 8, 7 and 1. *)
Definition fixture_ranking_3 : list product :=
  [ Product 5 1400 "EU" 4 3; Product 8 4000 "EU" 1 3;
    Product 7 630 "GBP" 5 3; Product 1 1000 "GBP" 2 3 ].


(** *** The test of the result writer *)



(** The key of an element whose key can be computed. *)
Definition key_of {A} (key : A → outcome float) (a : A) : float :=
  match key a with Return k => k | Raise _ => 0%float end.

End Valuation.

(** * Properties *)

(** ** FizzBuzz *)

Module FizzBuzzSpec.
Import FizzBuzz.

(** The line that one pass of the loop prints. *)
Lemma fizzbuzz_body_line num out :
  ∃ line, fizzbuzz_body num out = out ++ [line] ∧ fizzbuzz_line num line.
Proof.
  unfold fizzbuzz_body, fizzbuzz_line, print.
  repeat case_bool_decide; simpl;
    repeat match goal with
    | H : _ `mod` _ = 0 |- _ => apply Z.mod_divide in H; [|lia]
    | H : _ `mod` _ ≠ 0 |- _ => rewrite Z.mod_divide in H by lia
    end; eexists; (split; [reflexivity|]); tauto.
Qed.

Lemma range_length a b : length (range a b) = Z.to_nat (b - a).
Proof. unfold range. by rewrite length_fmap, length_seq. Qed.


(** The loop prints, after what was there, one line per number it is run
    over, in their order. *)
Lemma fizzbuzz_loop nums : ∀ out,
  ∃ lines, foldl (λ out num, fizzbuzz_body num out) out nums = out ++ lines ∧
    Forall2 fizzbuzz_line nums lines.
Proof.
  induction nums as [|num nums IH]; intros out; simpl.
  - exists []. by rewrite app_nil_r.
  - destruct (fizzbuzz_body_line num out) as (line & -> & Hline).
    destruct (IH (out ++ [line])) as (lines & -> & Hlines).
    exists (line :: lines). split; [by rewrite <- app_assoc | by constructor].
Qed.


Example fizzbuzz_1_15 :
  fizzbuzz 1 15 [] =
  ["1"; "2"; "Fizz"; "4"; "Buzz"; "Fizz"; "7"; "8"; "Fizz"; "Buzz"; "11"; "Fizz";
   "13"; "14"; "FizzBuzz"].
Proof. by vm_compute. Qed.

Example fizzbuzz_negative : fizzbuzz (-3) 0 [] = ["Fizz"; "-2"; "-1"; "FizzBuzz"].
Proof. by vm_compute. Qed.

Example fizzbuzz_empty : fizzbuzz 5 4 ["before"] = ["before"].
Proof. by vm_compute. Qed.

End FizzBuzzSpec.

(** ** The valuation service *)

Module ValuationSpec.
Import Valuation.

(** *** The order of floats

    [<] on binary64 values, through its specification on [spec_float]: it is
    asymmetric, and "not less than" is transitive through every value that is
    not NaN. *)

Ltac sf_cases :=
  repeat match goal with
  | s : bool |- _ => destruct s
  | |- context [Z.compare ?a ?b] => destruct (Z.compare_spec a b)
  | H : context [Z.compare ?a ?b] |- _ => destruct (Z.compare_spec a b)
  | |- context [Pos.compare ?a ?b] => destruct (Pos.compare_spec a b)
  | H : context [Pos.compare ?a ?b] |- _ => destruct (Pos.compare_spec a b)
  end; simpl in *; try done; try lia.

Ltac sf_unfold :=
  unfold SFltb, SFeqb, SFcompare;
  change (PosDef.Pos.compare_cont Eq) with Pos.compare.

Lemma SFltb_asym x y : SFltb x y = true → SFltb y x = false.
Proof.
  sf_unfold.
  destruct x as [sx|sx| |sx mx ex], y as [sy|sy| |sy my ey]; simpl; try done; sf_cases.
Qed.

Lemma SFltb_negtrans x y z :
  y ≠ S754_nan → SFltb x y = false → SFltb y z = false → SFltb x z = false.
Proof.
  sf_unfold.
  destruct x as [sx|sx| |sx mx ex], y as [sy|sy| |sy my ey], z as [sz|sz| |sz mz ez];
    simpl; try done; intros _; sf_cases.
Qed.


Lemma SFltb_leb x y :
  x ≠ S754_nan → y ≠ S754_nan → SFltb x y = false → SFleb y x = true.
Proof.
  sf_unfold. unfold SFleb, SFcompare.
  change (PosDef.Pos.compare_cont Eq) with Pos.compare.
  destruct x as [sx|sx| |sx mx ex], y as [sy|sy| |sy my ey]; simpl; try done;
    intros _ _; sf_cases.
  all: rewrite ?Z.compare_refl, ?Pos.compare_refl; simpl; try done.
  all: repeat match goal with
       | |- context [Z.compare ?a ?b] => destruct (Z.compare_spec a b)
       | |- context [Pos.compare ?a ?b] => destruct (Pos.compare_spec a b)
       end; simpl; try done; try lia.
Qed.

Lemma ltb_asym (x y : float) : (x <? y)%float = true → (y <? x)%float = false.
Proof. rewrite !FloatAxioms.ltb_spec. apply SFltb_asym. Qed.

Lemma ltb_negtrans (x y z : float) :
  is_nan y = false →
  (x <? y)%float = false → (y <? z)%float = false → (x <? z)%float = false.
Proof.
  unfold is_nan. rewrite FloatAxioms.eqb_spec, !FloatAxioms.ltb_spec. intros Hy.
  apply SFltb_negtrans. intros Hnan. by rewrite Hnan in Hy.
Qed.

Lemma ltb_leb (x y : float) :
  is_nan x = false → is_nan y = false → (x <? y)%float = false → (y <=? x)%float = true.
Proof.
  unfold is_nan. rewrite !FloatAxioms.eqb_spec, FloatAxioms.ltb_spec, FloatAxioms.leb_spec.
  intros Hx Hy. apply SFltb_leb; intros Hnan; by rewrite Hnan in *.
Qed.


(** *** The sort *)

Section sort_desc.
Context {A : Type}.
Implicit Types (l : list (float * A)) (k : float) (a : A).

Lemma insert_desc_perm k a l : insert_desc k a l ≡ₚ (k, a) :: l.
Proof.
  induction l as [|[k' a'] l IH]; simpl; [done|].
  destruct (k <? k')%float; [|done].
  rewrite IH. apply Permutation_swap.
Qed.

Lemma sort_desc_perm l : sort_desc l ≡ₚ l.
Proof.
  induction l as [|[k a] l IH]; [done|].
  change (sort_desc ((k, a) :: l)) with (insert_desc k a (sort_desc l)).
  by rewrite insert_desc_perm, IH.
Qed.



Lemma insert_desc_sorted k a l :
  Forall (λ x, is_nan x.1 = false) l →
  StronglySorted key_ge l → StronglySorted key_ge (insert_desc k a l).
Proof.
  intros Hnan Hl. induction Hl as [|[k' a'] l Hl IH Hhd]; simpl.
  { repeat constructor. }
  apply Forall_cons in Hnan as [Hk' Hnan]. simpl in Hk'.
  destruct (k <? k')%float eqn:Hlt.
  - constructor; [by apply IH|].
    rewrite insert_desc_perm. constructor; [|done].
    by apply ltb_asym.
  - constructor; [by constructor|].
    constructor; [done|].
    eapply Forall_impl; [exact Hhd|]. intros [k'' a''] Hge.
    unfold key_ge in *. simpl in *. by eapply ltb_negtrans.
Qed.

(** Descending order, when no key is NaN. *)
Lemma sort_desc_sorted l :
  Forall (λ x, is_nan x.1 = false) l → StronglySorted key_ge (sort_desc l).
Proof.
  induction 1 as [|[k a] l Hk Hl IH]; [constructor|].
  change (sort_desc ((k, a) :: l)) with (insert_desc k a (sort_desc l)).
  apply insert_desc_sorted; [|done].
  by rewrite sort_desc_perm.
Qed.

End sort_desc.

Lemma StronglySorted_lookup {A} (R : A → A → Prop) l (i j : nat) x y :
  StronglySorted R l → (i < j)%nat → l !! i = Some x → l !! j = Some y → R x y.
Proof.
  intros Hl. revert i j. induction Hl as [|a l Hl IH Hhd]; intros i j Hij Hi Hj; [done|].
  destruct j as [|j]; [lia|]. simpl in Hj.
  destruct i as [|i]; simpl in Hi.
  - simplify_eq. rewrite Forall_forall in Hhd. apply Hhd.
    by eapply list_elem_of_lookup_2.
  - apply (IH i j); [lia|done..].
Qed.

(** *** Outcomes *)

Lemma bind_Return {A B} (f : A → outcome B) (m : outcome A) b :
  m ≫= f = Return b ↔ ∃ a, m = Return a ∧ f a = Return b.
Proof.
  destruct m as [a|e]; simpl; split.
  - eauto.
  - by intros (? & [= <-] & ?).
  - done.
  - by intros (? & ? & ?).
Qed.

Lemma mapM_Return {A B} (f : A → outcome B) l ks :
  mapM f l = Return ks ↔ Forall2 (λ a k, f a = Return k) l ks.
Proof.
  revert ks. induction l as [|a l IH]; intros ks; simpl.
  - split; [by intros [= <-]|by inversion 1].
  - split.
    + intros (k & Hk & (ks' & Hks' & [= <-])%bind_Return)%bind_Return.
      constructor; [done|by apply IH].
    + intros (k & ks' & Hk & Hks' & ->)%Forall2_cons_inv_l.
      apply IH in Hks'. by rewrite Hk, Hks'.
Qed.

Lemma mapM_Raise {A B} (f : A → outcome B) l e :
  mapM f l = Raise e → ∃ a, a ∈ l ∧ f a = Raise e.
Proof.
  induction l as [|a l IH]; simpl; [done|].
  destruct (f a) as [k|e'] eqn:Hk; simpl.
  - destruct (mapM f l) as [ks|e'']; simpl; [done|].
    intros [= ->]. destruct IH as (a' & ? & ?); [done|].
    exists a'. split; [by right|done].
  - intros [= ->]. exists a. split; [by left|done].
Qed.

(** *** The ranking of a group (lines 106 and 107) *)

Section ranking.
Context {A : Type} (key : A → outcome float).

Lemma keyed_zip l ks : Forall2 (λ a k, key a = Return k) l ks → keyed key (zip ks l).
Proof. induction 1; simpl; by constructor. Qed.

Lemma list_sort_reverse_Return l l' :
  list_sort_reverse key l = Return l' ↔
  ∃ ks, Forall2 (λ a k, key a = Return k) l ks ∧ l' = (sort_desc (zip ks l)).*2.
Proof.
  unfold list_sort_reverse. rewrite bind_Return. split.
  - intros (ks & Hks%mapM_Return & [= <-]). eauto.
  - intros (ks & Hks & ->). exists ks. split; [by apply mapM_Return|done].
Qed.

Lemma list_sort_reverse_Raise l e :
  list_sort_reverse key l = Raise e → ∃ a, a ∈ l ∧ key a = Raise e.
Proof.
  unfold list_sort_reverse. destruct (mapM key l) eqn:Hks; simpl; [done|].
  intros [= ->]. by apply mapM_Raise.
Qed.

Lemma list_sort_reverse_perm l l' : list_sort_reverse key l = Return l' → l' ≡ₚ l.
Proof.
  intros (ks & Hks & ->)%list_sort_reverse_Return.
  rewrite sort_desc_perm, snd_zip; [done|].
  by rewrite (Forall2_length _ _ _ Hks).
Qed.

Lemma list_sort_reverse_length l l' :
  list_sort_reverse key l = Return l' → length l' = length l.
Proof. intros Hl. by rewrite (list_sort_reverse_perm _ _ Hl). Qed.

End ranking.


Lemma keyed_descending z :
  keyed ext_price z → Forall (λ x, is_nan x.1 = false) z →
  StronglySorted key_ge z → descending (z.*2).
Proof.
  intros Hkeyed Hnan Hsorted i j x y kx ky Hij Hx Hy Hkx Hky.
  rewrite list_lookup_fmap in Hx, Hy.
  destruct (z !! i) as [[kx' x']|] eqn:Hi; simplify_eq/=.
  destruct (z !! j) as [[ky' y']|] eqn:Hj; simplify_eq/=.
  unfold keyed in Hkeyed. rewrite Forall_forall in Hkeyed, Hnan.
  pose proof (Hkeyed _ (list_elem_of_lookup_2 _ _ _ Hi)) as Hkx'.
  pose proof (Hkeyed _ (list_elem_of_lookup_2 _ _ _ Hj)) as Hky'.
  pose proof (Hnan _ (list_elem_of_lookup_2 _ _ _ Hi)) as Hnx.
  pose proof (Hnan _ (list_elem_of_lookup_2 _ _ _ Hj)) as Hny.
  simpl in *.
  assert (kx' = kx) as -> by congruence. assert (ky' = ky) as -> by congruence.
  apply ltb_leb; [done..|].
  apply (StronglySorted_lookup key_ge z i j (kx, x) (ky, y) Hsorted Hij Hi Hj).
Qed.


(** *** Running statements *)

Lemma M_bind_Return {A B} (f : A → M B) (m : M A) w a w' :
  m w = (Return a, w') → (m ≫= f) w = f a w'.
Proof. intros Hm. unfold mbind, M_bind. by rewrite Hm. Qed.

Lemma M_bind_Raise {A B} (f : A → M B) (m : M A) w e w' :
  m w = (Raise e, w') → (m ≫= f) w = (Raise e, w').
Proof. intros Hm. unfold mbind, M_bind. by rewrite Hm. Qed.

Lemma M_bind_assoc {A B C} (f : A → M B) (g : B → M C) (m : M A) w :
  ((m ≫= f) ≫= g) w = (m ≫= λ a, f a ≫= g) w.
Proof. unfold mbind, M_bind. by destruct (m w) as [[a|e] w']. Qed.

Lemma M_ret_bind {A B} (f : A → M B) (a : A) w : (mret a ≫= f) w = f a w.
Proof. done. Qed.

Lemma lift_bind {A B} (f : A → M B) (o : outcome A) w :
  (lift o ≫= f) w = match o with Return a => f a w | Raise e => (Raise e, w) end.
Proof. by destruct o. Qed.

Lemma read_products_run l w ps :
  heap w !! l = Some (ProductList ps) → read_products l w = (Return ps, w).
Proof. intros Hl. unfold read_products, load, mbind, M_bind. by rewrite Hl. Qed.

Lemma read_matchings_run l w ms :
  heap w !! l = Some (MatchingList ms) → read_matchings l w = (Return ms, w).
Proof. intros Hl. unfold read_matchings, load, mbind, M_bind. by rewrite Hl. Qed.

Lemma read_currencies_run l w cs :
  heap w !! l = Some (CurrencyDict cs) → read_currencies l w = (Return cs, w).
Proof. intros Hl. unfold read_currencies, load, mbind, M_bind. by rewrite Hl. Qed.

Lemma read_results_run l w rs :
  heap w !! l = Some (ResultList rs) → read_results l w = (Return rs, w).
Proof. intros Hl. unfold read_results, load, mbind, M_bind. by rewrite Hl. Qed.

Lemma fresh_lookup (h : gmap loc obj) : h !! fresh (dom h) = None.
Proof. apply not_elem_of_dom, is_fresh. Qed.

Lemma fresh_ne (h : gmap loc obj) l o : h !! l = Some o → l ≠ fresh (dom h).
Proof. intros Hl ->. by rewrite fresh_lookup in Hl. Qed.

Lemma lookup_insert_fresh (h : gmap loc obj) l o o' :
  h !! l = Some o → <[fresh (dom h) := o']> h !! l = Some o.
Proof. intros Hl. rewrite lookup_insert_ne; [done|]. intros Heq. by apply (fresh_ne _ _ _ Hl). Qed.

(** One pass of the loop on a heap that holds the three lists and the dict. *)
Lemma valuation_body_run data currencies results m w ds cs rs :
  heap w !! data = Some (ProductList ds) →
  heap w !! currencies = Some (CurrencyDict cs) →
  heap w !! results = Some (ResultList rs) →
  match group_valuation ds cs m with
  | Return r =>
      ∃ w', valuation_body data currencies results m w = (Return (), w') ∧
            heap w' !! results = Some (ResultList (rs ++ [r]))
  | Raise e =>
      ∃ w', valuation_body data currencies results m w = (Raise e, w') ∧
            heap w' !! results = Some (ResultList rs)
  end.
Proof.
  intros Hdata Hcur Hres.
  unfold valuation_body, group_valuation.
  set (group := filter _ ds).
  set (w1 := World (<[fresh (dom (heap w)) := ProductList group]> (heap w)) (files w)).
  rewrite (M_bind_Return _ _ _ _ _ (read_products_run _ _ _ Hdata)).
  rewrite (M_bind_Return _ (alloc _) w _ w1) by done.
  rewrite (M_bind_Return _ (read_products _) w1 group w1)
    by (apply read_products_run, lookup_insert_eq).
  assert (Hw1 : ∀ l o, heap w !! l = Some o → heap w1 !! l = Some o).
  { intros l o Hl. by apply lookup_insert_fresh. }
  rewrite lift_bind.
  destruct (list_sort_reverse ext_price group) as [products|e]; simpl.
  2:{ eexists. split; [done|]. by apply Hw1. }
  set (l1 := fresh (dom (heap w))) in *.
  set (w2 := World (<[l1 := ProductList products]> (heap w1)) (files w1)).
  assert (Hw2 : ∀ l o, heap w !! l = Some o → heap w2 !! l = Some o).
  { intros l o Hl. simpl. rewrite lookup_insert_ne; [by apply Hw1|].
    intros Heq. by apply (fresh_ne _ _ _ Hl). }
  assert (Hl1 : heap w2 !! l1 = Some (ProductList products)) by apply lookup_insert_eq.
  rewrite (M_bind_Return _ (store _ _) w1 () w2) by done.
  rewrite (M_bind_Return _ (read_products l1) w2 products w2) by by apply read_products_run.
  set (top := slice_to products _).
  set (l2 := fresh (dom (heap w2))).
  set (w3 := World (<[l2 := ProductList top]> (heap w2)) (files w2)).
  assert (Hw3 : ∀ l o, heap w2 !! l = Some o → heap w3 !! l = Some o).
  { intros l o Hl. by apply lookup_insert_fresh. }
  rewrite (M_bind_Return _ (alloc _) w2 l2 w3) by done.
  rewrite (M_bind_Return _ (read_products l1) w3 products w3)
    by by apply read_products_run, Hw3.
  rewrite (M_bind_Return _ (read_products l2) w3 top w3)
    by (apply read_products_run, lookup_insert_eq).
  rewrite lift_bind.
  destruct (py_sum ext_price top) as [total|e]; simpl.
  2:{ eexists. split; [done|]. by apply Hw3, Hw2. }
  rewrite lift_bind.
  destruct (num_truediv total _) as [avg|e]; simpl.
  2:{ eexists. split; [done|]. by apply Hw3, Hw2. }
  rewrite (M_bind_Return _ (read_products l2) w3 top w3)
    by (apply read_products_run, lookup_insert_eq).
  rewrite lift_bind.
  destruct (getitem0 top) as [first|e]; simpl.
  2:{ eexists. split; [done|]. by apply Hw3, Hw2. }
  case_bool_decide.
  - rewrite M_bind_assoc.
    rewrite (M_bind_Return _ (read_currencies _) w3 cs w3)
      by by apply read_currencies_run, Hw3, Hw2.
    rewrite M_bind_assoc, lift_bind.
    destruct (dict_getitem cs _) as [ratio|e]; simpl.
    2:{ eexists. split; [done|]. by apply Hw3, Hw2. }
    rewrite M_bind_assoc, lift_bind.
    destruct (num_mul_float total ratio) as [total'|e]; simpl.
    2:{ eexists. split; [done|]. by apply Hw3, Hw2. }
    rewrite M_ret_bind.
    rewrite (M_bind_Return _ (read_results _) w3 rs w3)
      by by apply read_results_run, Hw3, Hw2.
    eexists. split; [done|]. apply lookup_insert_eq.
  - rewrite M_ret_bind.
    rewrite (M_bind_Return _ (read_results _) w3 rs w3)
      by by apply read_results_run, Hw3, Hw2.
    eexists. split; [done|]. apply lookup_insert_eq.
Qed.

(** *** What a statement leaves unchanged *)

Lemma preserves_dom D {A} (m : M A) w :
  preserves D m → D ⊆ dom (heap w) → D ⊆ dom (heap (m w).2).
Proof.
  intros Hm HD l Hl. destruct (Hm w HD) as [_ Hheap].
  apply elem_of_dom. rewrite Hheap by done. apply elem_of_dom. by apply HD.
Qed.

Lemma preserves_ret D {A} (a : A) : preserves D (mret a).
Proof. by intros w _. Qed.

Lemma preserves_lift D {A} (o : outcome A) : preserves D (lift o).
Proof. by intros w _. Qed.

Lemma preserves_load D l : preserves D (load l).
Proof. intros w _. unfold load. by destruct (heap w !! l). Qed.

Lemma preserves_bind D {A B} (m : M A) (f : A → M B) :
  preserves D m → (∀ a, preserves D (f a)) → preserves D (m ≫= f).
Proof.
  intros Hm Hf w HD. pose proof (preserves_dom D m w Hm HD) as HD'.
  destruct (Hm w HD) as [Hfiles Hheap].
  unfold mbind, M_bind. destruct (m w) as [[a|e] w']; simpl in *; [|done].
  destruct (Hf a w' HD') as [Hfiles' Hheap']. split; [congruence|].
  intros l Hl. by rewrite Hheap', Hheap.
Qed.

Lemma preserves_alloc_bind D {B} (o : obj) (f : loc → M B) :
  (∀ l, l ∉ D → preserves D (f l)) → preserves D (alloc o ≫= f).
Proof.
  intros Hf w HD. unfold mbind, M_bind, alloc.
  set (l := fresh (dom (heap w))).
  assert (Hl : l ∉ D) by (intros Hl%HD; by apply is_fresh in Hl).
  set (w' := World (<[l := o]> (heap w)) (files w)).
  assert (Hw' : ∀ l', l' ∈ D → heap w' !! l' = heap w !! l').
  { intros l' Hl'. apply lookup_insert_ne. by intros ->. }
  destruct (Hf l Hl w') as [Hfiles Hheap].
  { intros l' Hl'. apply elem_of_dom. rewrite Hw' by done. apply elem_of_dom. by apply HD. }
  split; [done|]. intros l' Hl'. by rewrite Hheap, Hw'.
Qed.

Lemma preserves_store D l o : l ∉ D → preserves D (store l o).
Proof.
  intros Hl w _. split; [done|]. intros l' Hl'. apply lookup_insert_ne. by intros ->.
Qed.

Lemma preserves_read_products D l : preserves D (read_products l).
Proof.
  apply preserves_bind; [apply preserves_load|].
  intros []; (apply preserves_ret || apply preserves_lift).
Qed.

Lemma preserves_read_matchings D l : preserves D (read_matchings l).
Proof.
  apply preserves_bind; [apply preserves_load|].
  intros []; (apply preserves_ret || apply preserves_lift).
Qed.

Lemma preserves_read_currencies D l : preserves D (read_currencies l).
Proof.
  apply preserves_bind; [apply preserves_load|].
  intros []; (apply preserves_ret || apply preserves_lift).
Qed.

Lemma preserves_read_results D l : preserves D (read_results l).
Proof.
  apply preserves_bind; [apply preserves_load|].
  intros []; (apply preserves_ret || apply preserves_lift).
Qed.

Lemma preserves_for_each D {A} (body : A → M unit) l :
  (∀ x, preserves D (body x)) → preserves D (for_each body l).
Proof.
  intros Hbody. induction l as [|x l IH]; simpl.
  - apply preserves_ret.
  - by apply preserves_bind.
Qed.

Create HintDb frame.
#[local] Hint Resolve preserves_ret preserves_lift preserves_load preserves_store
  preserves_read_products preserves_read_matchings preserves_read_currencies
  preserves_read_results : frame.

Ltac frame_step :=
  first
    [ solve [auto with frame]
    | apply preserves_alloc_bind; intros ? ?
    | apply preserves_bind; [|intros ?]
    | apply preserves_for_each; intros ?
    | match goal with |- preserves _ (if ?b then _ else _) => destruct b end ].

Lemma valuation_body_preserves D data currencies results m :
  results ∉ D → preserves D (valuation_body data currencies results m).
Proof. intros Hres. unfold valuation_body. repeat frame_step. Qed.

Lemma calculate_valuation_preserves D data matchings currencies :
  preserves D (calculate_valuation data matchings currencies).
Proof.
  unfold calculate_valuation.
  apply preserves_alloc_bind; intros results Hres.
  apply preserves_bind; [auto with frame|intros ms].
  apply preserves_bind; [|intros; auto with frame].
  apply preserves_for_each; intros m. by apply valuation_body_preserves.
Qed.

(** C9: [calculate_valuation] does not write to its inputs.  Whatever heap
    it is called on and however it ends, every object that the heap holds
    before the call (the product list, the matching list and the currency
    dict among them) is at its location, unchanged, after the call, and no
    file is written. *)
Theorem calculate_valuation_frame data matchings currencies w :
  heap w ⊆ heap (calculate_valuation data matchings currencies w).2 ∧
  files (calculate_valuation data matchings currencies w).2 = files w.
Proof.
  destruct (calculate_valuation_preserves (dom (heap w)) data matchings currencies w)
    as [Hfiles Hheap]; [done|].
  split; [|done]. apply map_subseteq_spec. intros l o Hl.
  rewrite Hheap; [done|]. by apply elem_of_dom.
Qed.

(** What the frame rules exclude: a write to an input, as a sort of [data]
    in place would be, is seen in the heap. *)
Example store_is_seen :
  heap (store l_data (ProductList []) fixture_world).2 !! l_data
  ≠ heap fixture_world !! l_data.
Proof. by vm_compute. Qed.

(** *** The whole loop *)

Lemma results_not_input (h : gmap loc obj) data currencies results ds cs rs :
  h !! data = Some (ProductList ds) → h !! currencies = Some (CurrencyDict cs) →
  h !! results = Some (ResultList rs) →
  results ∉ ({[data; currencies]} : gset loc).
Proof.
  intros Hd Hc Hr Hin. apply elem_of_union in Hin as [Hin|Hin];
    apply elem_of_singleton in Hin; congruence.
Qed.

Lemma run_preserved D {A} (m : M A) w o w' l x :
  preserves D m → D ⊆ dom (heap w) → m w = (o, w') →
  l ∈ D → heap w !! l = Some x → heap w' !! l = Some x.
Proof.
  intros Hm HD Hrun Hl Hx. destruct (Hm w HD) as [_ Hheap].
  rewrite Hrun in Hheap. simpl in Hheap. by rewrite Hheap.
Qed.

Lemma for_each_body_run data currencies results ds cs ms : ∀ w rs0,
  heap w !! data = Some (ProductList ds) →
  heap w !! currencies = Some (CurrencyDict cs) →
  heap w !! results = Some (ResultList rs0) →
  match mapM (group_valuation ds cs) ms with
  | Return rs =>
      ∃ w', for_each (valuation_body data currencies results) ms w = (Return (), w') ∧
            heap w' !! results = Some (ResultList (rs0 ++ rs))
  | Raise e =>
      ∃ w', for_each (valuation_body data currencies results) ms w = (Raise e, w')
  end.
Proof.
  induction ms as [|m ms IH]; intros w rs0 Hdata Hcur Hres; simpl.
  { exists w. by rewrite app_nil_r. }
  pose proof (valuation_body_run _ _ _ m _ _ _ _ Hdata Hcur Hres) as Hbody.
  destruct (group_valuation ds cs m) as [r|e]; simpl.
  2:{ destruct Hbody as (w' & Hrun & _). exists w'. by apply M_bind_Raise. }
  destruct Hbody as (w1 & Hrun & Hres1).
  assert (HD : ({[data; currencies]} : gset loc) ⊆ dom (heap w)).
  { intros l [->%elem_of_singleton| ->%elem_of_singleton]%elem_of_union;
      by apply elem_of_dom. }
  pose proof (valuation_body_preserves _ data currencies results m
                (results_not_input _ _ _ _ _ _ _ Hdata Hcur Hres)) as Hpres.
  assert (Hdata1 : heap w1 !! data = Some (ProductList ds)).
  { eapply (run_preserved _ _ _ _ _ _ _ Hpres HD Hrun); [|done]. set_solver. }
  assert (Hcur1 : heap w1 !! currencies = Some (CurrencyDict cs)).
  { eapply (run_preserved _ _ _ _ _ _ _ Hpres HD Hrun); [|done]. set_solver. }
  specialize (IH w1 (rs0 ++ [r]) Hdata1 Hcur1 Hres1).
  rewrite (M_bind_Return _ _ _ _ _ Hrun).
  destruct (mapM (group_valuation ds cs) ms) as [rs|e]; simpl.
  - destruct IH as (w2 & Hrun2 & Hres2). exists w2. split; [done|].
    by rewrite <- app_assoc in Hres2.
  - done.
Qed.

(** [calculate_valuation] on a heap that holds the two lists and the dict:
    it returns the results of the groups, in the order of [matchings], or
    raises what the first group that fails raises. *)
Lemma calculate_valuation_run data matchings currencies w ds ms cs :
  heap w !! data = Some (ProductList ds) →
  heap w !! matchings = Some (MatchingList ms) →
  heap w !! currencies = Some (CurrencyDict cs) →
  match mapM (group_valuation ds cs) ms with
  | Return rs =>
      ∃ results w', calculate_valuation data matchings currencies w = (Return results, w') ∧
                    heap w' !! results = Some (ResultList rs)
  | Raise e =>
      ∃ w', calculate_valuation data matchings currencies w = (Raise e, w')
  end.
Proof.
  intros Hdata Hms Hcur. unfold calculate_valuation.
  set (results := fresh (dom (heap w))).
  set (w1 := World (<[results := ResultList []]> (heap w)) (files w)).
  rewrite (M_bind_Return _ (alloc _) w results w1) by done.
  assert (Hw1 : ∀ l o, heap w !! l = Some o → heap w1 !! l = Some o).
  { intros l o Hl. by apply lookup_insert_fresh. }
  rewrite (M_bind_Return _ (read_matchings _) w1 ms w1)
    by by apply read_matchings_run, Hw1.
  pose proof (for_each_body_run data currencies results ds cs ms w1 []
                (Hw1 _ _ Hdata) (Hw1 _ _ Hcur) (lookup_insert_eq _ _ _)) as Hloop.
  destruct (mapM (group_valuation ds cs) ms) as [rs|e].
  - destruct Hloop as (w2 & Hrun & Hres).
    exists results, w2. by rewrite (M_bind_Return _ _ _ _ _ Hrun).
  - destruct Hloop as (w2 & Hrun). exists w2. by apply M_bind_Raise.
Qed.

Lemma calculate_and_save_run data matchings currencies w ds ms cs :
  heap w !! data = Some (ProductList ds) →
  heap w !! matchings = Some (MatchingList ms) →
  heap w !! currencies = Some (CurrencyDict cs) →
  match mapM (group_valuation ds cs) ms with
  | Return rs =>
      ∃ w', calculate_and_save data matchings currencies w = (Return (), w') ∧
            files w' = <["top_products.csv" := CsvFile fieldnames rs]> (files w)
  | Raise e =>
      ∃ w', calculate_and_save data matchings currencies w = (Raise e, w') ∧
            files w' = files w
  end.
Proof.
  intros Hdata Hms Hcur. unfold calculate_and_save.
  pose proof (calculate_valuation_run _ _ _ _ _ _ _ Hdata Hms Hcur) as Hrun.
  destruct (calculate_valuation_preserves (dom (heap w)) data matchings currencies w)
    as [Hfiles _]; [done|].
  destruct (mapM (group_valuation ds cs) ms) as [rs|e].
  - destruct Hrun as (results & w2 & Hrun & Hres). rewrite Hrun in Hfiles.
    rewrite (M_bind_Return _ _ _ _ _ Hrun). unfold save_results.
    rewrite (M_bind_Return _ _ _ _ _ (read_results_run _ _ _ Hres)).
    eexists. split; [done|]. simpl in *. by rewrite Hfiles.
  - destruct Hrun as (w2 & Hrun). rewrite Hrun in Hfiles.
    exists w2. split; [by apply M_bind_Raise|done].
Qed.

(** *** One group *)

Lemma group_valuation_stages data cs m :
  group_valuation data cs m =
  '(products, first, total_price, avg_price) ← pre_conversion data m;
  converted cs m products first total_price avg_price.
Proof.
  unfold group_valuation, pre_conversion, converted.
  destruct (list_sort_reverse _ _) as [products|]; simpl; [|done].
  destruct (py_sum _ _) as [total|]; simpl; [|done].
  destruct (num_truediv _ _) as [avg|]; simpl; [|done].
  by destruct (getitem0 _) as [first|].
Qed.

Lemma pre_conversion_Return data m products first total avg :
  pre_conversion data m = Return (products, first, total, avg) ↔
  list_sort_reverse ext_price
    (filter (λ x, p_matching_id x = m_matching_id m) data) = Return products ∧
  py_sum ext_price (slice_to products (m_top_priced_count m)) = Return total ∧
  num_truediv total (m_top_priced_count m) = Return avg ∧
  getitem0 (slice_to products (m_top_priced_count m)) = Return first.
Proof.
  unfold pre_conversion. split.
  - intros (products' & H1 & (total' & H2 & (avg' & H3 &
      (first' & H4 & [= <- <- <- <-])%bind_Return)%bind_Return)%bind_Return)%bind_Return.
    done.
  - intros (H1 & H2 & H3 & H4). rewrite H1. simpl. rewrite H2. simpl.
    rewrite H3. simpl. by rewrite H4.
Qed.

Lemma int_to_float_0 : int_to_float 0 = Return 0%float.
Proof. reflexivity. Qed.

Lemma sum_from_float {A} (f : A → outcome float) l : ∀ s total,
  sum_from f (PyFloat s) l = Return total ↔
  ∃ ks, Forall2 (λ a k, f a = Return k) l ks ∧ total = PyFloat (foldl PrimFloat.add s ks).
Proof.
  induction l as [|a l IH]; intros s total; simpl.
  - split.
    + intros [= <-]. exists []. by split.
    + intros (ks & ->%Forall2_nil_inv_l & ->). done.
  - destruct (f a) as [k|e] eqn:Hk; simpl.
    + rewrite IH. split.
      * intros (ks & Hks & ->). exists (k :: ks). split; [by constructor|done].
      * intros (ks' & (k' & ks & Hk' & Hks & ->)%Forall2_cons_inv_l & ->).
        exists ks. split; [done|]. simpl. congruence.
    + split; [done|].
      intros (ks' & (k' & ks & Hk' & Hks & ->)%Forall2_cons_inv_l & ->). congruence.
Qed.

(** The sum over a list that is not empty is a float: the int [0], as a float,
    plus the keys from left to right. *)
Lemma py_sum_cons {A} (f : A → outcome float) a l total :
  py_sum f (a :: l) = Return total ↔
  ∃ ks, Forall2 (λ a k, f a = Return k) (a :: l) ks ∧
        total = PyFloat (foldl PrimFloat.add 0%float ks).
Proof.
  unfold py_sum. simpl. destruct (f a) as [k|e] eqn:Hk; simpl.
  - rewrite sum_from_float. split.
    + intros (ks & Hks & ->). exists (k :: ks). split; [by constructor|done].
    + intros (ks' & (k' & ks & Hk' & Hks & ->)%Forall2_cons_inv_l & ->).
      exists ks. split; [done|]. simpl. by assert (k' = k) as -> by congruence.
  - split; [done|].
    intros (ks' & (k' & ks & Hk' & Hks & ->)%Forall2_cons_inv_l & ->). congruence.
Qed.

Lemma truediv_float t b avg :
  num_truediv (PyFloat t) b = Return avg ↔
  b ≠ 0 ∧ ∃ n, int_to_float b = Return n ∧ avg = (t / n)%float.
Proof.
  simpl. case_bool_decide as Hb.
  - split; [done|]. by intros [? _].
  - destruct (int_to_float b) as [n|e]; simpl.
    + split.
      * intros [= <-]. eauto.
      * intros (_ & n' & [= <-] & ->). done.
    + split; [done|]. by intros (_ & n' & ? & _).
Qed.

(** What the first stage leaves when it succeeds: the top set is not empty,
    the total is the float sum of its extended prices, and the average is the
    float quotient of the total by the count. *)
Lemma pre_conversion_inv data m products first total avg :
  pre_conversion data m = Return (products, first, total, avg) →
  ∃ ks n,
    Forall2 (λ x k, ext_price x = Return k) (slice_to products (m_top_priced_count m)) ks ∧
    total = PyFloat (foldl PrimFloat.add 0%float ks) ∧
    m_top_priced_count m ≠ 0 ∧
    int_to_float (m_top_priced_count m) = Return n ∧
    avg = (foldl PrimFloat.add 0%float ks / n)%float.
Proof.
  intros (Hsort & Hsum & Hdiv & Hfirst)%pre_conversion_Return.
  destruct (slice_to products _) as [|x top]; [done|].
  apply py_sum_cons in Hsum as (ks & Hks & ->).
  apply truediv_float in Hdiv as (Hcount & n & Hn & ->).
  by exists ks, n.
Qed.

Lemma group_valuation_Return data cs m r :
  group_valuation data cs m = Return r ↔
  ∃ products first total avg,
    pre_conversion data m = Return (products, first, total, avg) ∧
    converted cs m products first total avg = Return r.
Proof.
  rewrite group_valuation_stages, bind_Return. split.
  - intros ([[[products first] total] avg] & ? & ?). by exists products, first, total, avg.
  - intros (products & first & total & avg & ? & ?).
    by exists (products, first, total, avg).
Qed.

(** C2: for a group whose computation succeeds, the result's currency is
    the base currency, and the total and the average are multiplied by the
    ratio of the currency of the first product of the top set exactly when
    that currency is not the base currency. *)
Theorem conversion_iff_foreign data cs m r :
  group_valuation data cs m = Return r →
  r_currency r = "PLN" ∧
  ∃ products first total avg,
    pre_conversion data m = Return (products, first, PyFloat total, avg) ∧
    getitem0 (slice_to products (m_top_priced_count m)) = Return first ∧
    (p_currency first = "PLN" →
       r_total_price r = PyFloat total ∧ r_avg_price r = avg) ∧
    (p_currency first ≠ "PLN" →
       ∃ ratio, cs !! p_currency first = Some ratio ∧
                r_total_price r = PyFloat (total * ratio)%float ∧
                r_avg_price r = (avg * ratio)%float).
Proof.
  intros (products & first & total & avg & Hpre & Hconv)%group_valuation_Return.
  destruct (pre_conversion_inv _ _ _ _ _ _ Hpre) as (ks & n & _ & -> & _).
  pose proof Hpre as (_ & _ & _ & Hfirst)%pre_conversion_Return.
  unfold converted in Hconv. case_bool_decide as Hcur.
  - unfold dict_getitem in Hconv.
    destruct (cs !! p_currency first) as [ratio|] eqn:Hratio; [|done].
    simpl in Hconv. injection Hconv as <-. split; [done|].
    eexists products, first, _, avg. split_and!; [done|done|done|].
    intros _. by exists ratio.
  - injection Hconv as <-. split; [done|].
    eexists products, first, _, avg. split_and!; [done|done|done|done].
Qed.

(** C3, as the code has it: for a group whose computation succeeds,
    [ignored_products_count] is the number of products of the group minus
    [top_priced_count]; it is not negative when [top_priced_count] is at
    most that number, and 0 when the two are equal. *)
Theorem ignored_products_count_is_difference data cs m r :
  group_valuation data cs m = Return r →
  let count := Z.of_nat (length (filter (λ x, p_matching_id x = m_matching_id m) data)) in
  r_ignored_products_count r = count - m_top_priced_count m ∧
  (m_top_priced_count m ≤ count ↔ 0 ≤ r_ignored_products_count r) ∧
  (m_top_priced_count m = count ↔ r_ignored_products_count r = 0).
Proof.
  intros (products & first & total & avg & Hpre & Hconv)%group_valuation_Return count.
  apply pre_conversion_Return in Hpre as (Hsort%list_sort_reverse_length & _).
  assert (r_ignored_products_count r = count - m_top_priced_count m) as ->.
  { unfold count. rewrite <- Hsort. unfold converted in Hconv.
    case_bool_decide.
    - destruct (dict_getitem _ _); [|done]. simpl in Hconv.
      destruct (num_mul_float _ _); [|done]. by injection Hconv as <-.
    - by injection Hconv as <-. }
  lia.
Qed.

(** C7: for a group whose computation succeeds, before any conversion the
    total is the float sum of the extended prices of the top set, from left
    to right, and the average is the float quotient of that total by
    [top_priced_count]; the result is built from these two values. *)
Theorem avg_price_is_quotient data cs m r :
  group_valuation data cs m = Return r →
  ∃ products first ks n,
    let total_price := foldl PrimFloat.add 0%float ks in
    let avg_price := (total_price / n)%float in
    Forall2 (λ x k, ext_price x = Return k)
      (slice_to products (m_top_priced_count m)) ks ∧
    int_to_float (m_top_priced_count m) = Return n ∧
    pre_conversion data m = Return (products, first, PyFloat total_price, avg_price) ∧
    converted cs m products first (PyFloat total_price) avg_price = Return r.
Proof.
  intros (products & first & total & avg & Hpre & Hconv)%group_valuation_Return.
  destruct (pre_conversion_inv _ _ _ _ _ _ Hpre) as (ks & n & Hks & -> & _ & Hn & ->).
  by exists products, first, ks, n.
Qed.

(** *** Groups that fail *)

Lemma mapM_total {A B} (f : A → outcome B) l :
  (∀ a, a ∈ l → ∃ b, f a = Return b) → ∃ bs, mapM f l = Return bs.
Proof.
  induction l as [|a l IH]; intros Hl; simpl; [by eexists|].
  destruct (Hl a) as [b ->]; [by left|].
  destruct IH as [bs ->]; [intros a' Ha'; apply Hl; by right|].
  by eexists.
Qed.

Lemma mapM_elem_Raise {A B} (f : A → outcome B) l a e :
  a ∈ l → f a = Raise e → ∃ e', mapM f l = Raise e'.
Proof.
  induction l as [|a' l IH]; intros Ha Hfa; [by apply elem_of_nil in Ha|].
  simpl. apply elem_of_cons in Ha as [<-|Ha].
  - rewrite Hfa. by eexists.
  - destruct (f a'); simpl; [|by eexists].
    destruct (IH Ha Hfa) as [e' ->]. by eexists.
Qed.

Lemma slice_to_nil {A} n : slice_to (@nil A) n = [].
Proof. unfold slice_to. case_bool_decide; apply take_nil. Qed.

Lemma slice_to_0 {A} (l : list A) : slice_to l 0 = [].
Proof. done. Qed.

(** [0 / b] for ints: a zero. *)
Lemma int_truediv_0 b :
  b ≠ 0 → int_truediv 0 b = Return (if b <? 0 then PrimFloat.neg_zero else PrimFloat.zero).
Proof.
  intros Hb. unfold int_truediv. rewrite bool_decide_eq_false_2 by done.
  change (Z.abs 0) with 0. rewrite Z.mul_0_l, Zdiv_0_l, Zmod_0_l.
  rewrite bool_decide_eq_true_2 by done. change (0 <? 0) with false.
  change (2 * 0 + 0) with 0. change (- 0) with 0.
  simpl xorb. by destruct (b <? 0).
Qed.

(** A group with a zero count raises [ZeroDivisionError] once it is ranked. *)
Lemma zero_count_raises data cs m products :
  m_top_priced_count m = 0 →
  list_sort_reverse ext_price
    (filter (λ x, p_matching_id x = m_matching_id m) data) = Return products →
  group_valuation data cs m = Raise ZeroDivisionError.
Proof.
  intros Hcount Hsort. unfold group_valuation. rewrite Hsort, Hcount. done.
Qed.

(** An empty group with a count that is not zero raises [IndexError]. *)
Lemma empty_group_raises data cs m :
  filter (λ x, p_matching_id x = m_matching_id m) data = [] →
  m_top_priced_count m ≠ 0 →
  group_valuation data cs m = Raise IndexError.
Proof.
  intros Hgroup Hcount. unfold group_valuation. rewrite Hgroup. simpl.
  rewrite slice_to_nil. simpl. rewrite int_truediv_0 by done. done.
Qed.

Lemma group_valuation_invalid data cs m :
  m_top_priced_count m = 0 ∨ filter (λ x, p_matching_id x = m_matching_id m) data = [] →
  ∃ e, group_valuation data cs m = Raise e.
Proof.
  intros Hinvalid.
  destruct (decide (m_top_priced_count m = 0)) as [Hcount|Hcount].
  - destruct (list_sort_reverse ext_price
                (filter (λ x, p_matching_id x = m_matching_id m) data))
      as [products|e] eqn:Hsort.
    + exists ZeroDivisionError. by eapply zero_count_raises.
    + exists e. unfold group_valuation. by rewrite Hsort.
  - destruct Hinvalid as [?|Hgroup]; [done|].
    exists IndexError. by apply empty_group_raises.
Qed.

(** C4, as the code has it: a group with [top_priced_count = 0], or with
    no product, makes [calculate_valuation] raise, and no result is produced
    for it.  What the group raises is [ZeroDivisionError] when the count is 0
    (and the extended prices of the group can be computed), and [IndexError]
    when the group is empty and the count is not 0. *)
Theorem invalid_group_raises data matchings currencies w ds ms cs m :
  heap w !! data = Some (ProductList ds) →
  heap w !! matchings = Some (MatchingList ms) →
  heap w !! currencies = Some (CurrencyDict cs) →
  m ∈ ms →
  m_top_priced_count m = 0 ∨ filter (λ x, p_matching_id x = m_matching_id m) ds = [] →
  (∃ e, (calculate_valuation data matchings currencies w).1 = Raise e) ∧
  (∃ e, group_valuation ds cs m = Raise e) ∧
  (m_top_priced_count m = 0 →
     (∀ x, x ∈ filter (λ x, p_matching_id x = m_matching_id m) ds →
           ∃ k, ext_price x = Return k) →
     group_valuation ds cs m = Raise ZeroDivisionError) ∧
  (filter (λ x, p_matching_id x = m_matching_id m) ds = [] →
     m_top_priced_count m ≠ 0 →
     group_valuation ds cs m = Raise IndexError).
Proof.
  intros Hdata Hms Hcur Hm Hinvalid.
  destruct (group_valuation_invalid ds cs m Hinvalid) as [e He].
  split_and!.
  - destruct (mapM_elem_Raise _ _ _ _ Hm He) as [e' He'].
    pose proof (calculate_valuation_run _ _ _ _ _ _ _ Hdata Hms Hcur) as Hrun.
    rewrite He' in Hrun. destruct Hrun as (w' & ->). by exists e'.
  - by exists e.
  - intros Hcount Hkeys.
    destruct (mapM_total ext_price _ Hkeys) as [ks Hks].
    eapply zero_count_raises; [done|].
    unfold list_sort_reverse. by rewrite Hks.
  - apply empty_group_raises.
Qed.

(** *** Groups that succeed *)




(** *** A group that fails *)

Lemma mapM_first_Raise {A B} (f : A → outcome B) before a after e :
  Forall (λ a', ∃ b, f a' = Return b) before → f a = Raise e →
  mapM f (before ++ a :: after) = Raise e.
Proof.
  intros Hbefore Ha. induction Hbefore as [|a' before [b Hb] _ IH]; simpl.
  - by rewrite Ha.
  - by rewrite Hb, IH.
Qed.

(** C8: when the computation of a group fails, the groups before it having
    succeeded, the run fails with the error of that group, and no file is
    written: [save_results] is not reached. *)
Theorem failure_writes_nothing data matchings currencies w ds ms cs before m after e :
  heap w !! data = Some (ProductList ds) →
  heap w !! matchings = Some (MatchingList ms) →
  heap w !! currencies = Some (CurrencyDict cs) →
  ms = before ++ m :: after →
  Forall (λ m', ∃ r, group_valuation ds cs m' = Return r) before →
  group_valuation ds cs m = Raise e →
  (calculate_valuation data matchings currencies w).1 = Raise e ∧
  (calculate_and_save data matchings currencies w).1 = Raise e ∧
  files (calculate_and_save data matchings currencies w).2 = files w.
Proof.
  intros Hdata Hms Hcur -> Hbefore Hm.
  pose proof (mapM_first_Raise _ _ _ after _ Hbefore Hm) as Hall.
  pose proof (calculate_valuation_run _ _ _ _ _ _ _ Hdata Hms Hcur) as Hrun.
  pose proof (calculate_and_save_run _ _ _ _ _ _ _ Hdata Hms Hcur) as Hsave.
  rewrite Hall in Hrun, Hsave.
  destruct Hrun as (w1 & ->). destruct Hsave as (w2 & -> & Hfiles). done.
Qed.

Example int_of_numeral_examples :
  int_of_numeral "1400" = Return 1400 ∧ int_of_numeral "-12" = Return (-12) ∧
  int_of_numeral "" = Raise ValueError ∧ int_of_numeral "12a" = Raise ValueError.
Proof. by vm_compute. Qed.

Example float_of_numeral_examples :
  float_of_numeral "1000" = Return 1000%float ∧
  float_of_numeral "2.4" = Return 0x1.3333333333333p+1%float ∧
  float_of_numeral "2.1" = Return 0x1.0cccccccccccdp+1%float ∧
  float_of_numeral "1.0" = Return 1%float ∧
  float_of_numeral "-0.5" = Return (-0.5)%float ∧
  float_of_numeral "PLN" = Raise ValueError.
Proof. by vm_compute. Qed.

(** *** The loader and the currencies *)



(** The exceptions of the first stage of a group. *)
Lemma int_to_float_Raise n e : int_to_float n = Raise e → e = OverflowError.
Proof. unfold int_to_float. destruct (is_infinity _); congruence. Qed.

Lemma ext_price_Raise x e : ext_price x = Raise e → e = OverflowError.
Proof.
  unfold ext_price, float_mul_int.
  destruct (int_to_float _) eqn:Hn; simpl; [done|].
  intros [= <-]. by eapply int_to_float_Raise.
Qed.

Lemma sum_from_Raise l : ∀ acc e,
  (∀ n, acc = PyInt n → n = 0) →
  sum_from ext_price acc l = Raise e → e = OverflowError.
Proof.
  induction l as [|x l IH]; intros acc e Hacc; simpl; [done|].
  destruct (ext_price x) as [k|e'] eqn:Hk; simpl.
  2:{ intros [= <-]. by eapply ext_price_Raise. }
  destruct (num_add_float acc k) as [s|e'] eqn:Hs; simpl.
  - apply IH. by intros n [=].
  - intros [= <-]. destruct acc as [n|y]; [|done].
    rewrite (Hacc n eq_refl) in Hs. done.
Qed.

Lemma int_truediv_Raise a b e :
  int_truediv a b = Raise e → e = ZeroDivisionError ∨ e = OverflowError.
Proof.
  unfold int_truediv. case_bool_decide; [intros [= <-]; by left|].
  destruct (is_infinity _); [intros [= <-]; by right|done].
Qed.

Lemma num_truediv_Raise a b e :
  num_truediv a b = Raise e → e = ZeroDivisionError ∨ e = OverflowError.
Proof.
  destruct a as [n|x]; simpl; [apply int_truediv_Raise|].
  case_bool_decide; [intros [= <-]; by left|].
  destruct (int_to_float b) eqn:Hb; simpl; [done|].
  intros [= <-]. right. by eapply int_to_float_Raise.
Qed.




Example load_fixture :
  load_currencies float_of_numeral fixture_currency_rows = Return fixture_currencies ∧
  load_data int_of_numeral float_of_numeral fixture_data_rows = Return fixture_data ∧
  load_matchings int_of_numeral fixture_matching_rows = Return fixture_matchings.
Proof. by vm_compute. Qed.

Example fixture_valuation :
  mapM (group_valuation fixture_data fixture_currencies) fixture_matchings
  = Return fixture_results.
Proof. by vm_compute. Qed.

Example fixture_run :
  (calculate_and_save l_data l_matchings l_currencies fixture_world).1 = Return () ∧
  files (calculate_and_save l_data l_matchings l_currencies fixture_world).2 !! "top_products.csv"
  = Some (CsvFile fieldnames fixture_results).
Proof. by vm_compute. Qed.

(** *** Inputs on which the specification and the code differ *)


(** C3 fails on a count above the size of the group: with one product and a
    count of 2 the computation succeeds, and [ignored_products_count] is
    [-1]. *)
Lemma ignored_products_count_negative :
  group_valuation [Product 1 10 "PLN" 1 1] ∅ (Matching 1 2)
  = Return (ValuationResult 1 (PyFloat 10) 5 "PLN" (-1)).
Proof. by vm_compute. Qed.

(** C4 fails on the kind of error: an empty group with a count of 0 raises
    the error of the division, not the error of the empty top set; and a
    group with a count of 0 and a quantity beyond the floats raises
    neither. *)
Lemma invalid_group_other_error :
  filter (λ x, p_matching_id x = 1) (@nil product) = [] ∧
  group_valuation [] ∅ (Matching 1 0) = Raise ZeroDivisionError ∧
  group_valuation [Product 1 10 "PLN" (2 ^ 1024) 1] ∅ (Matching 1 0)
  = Raise OverflowError.
Proof. by vm_compute. Qed.



(** *** The properties on the input of the script *)



(** C2 on the third group of the script, whose first product is in EU. *)
Lemma conversion_iff_foreign_fixture :
  r_currency (ValuationResult 3 (PyFloat 26775) 8925 "PLN" 1) = "PLN" ∧
  ∃ products first total avg,
    pre_conversion fixture_data (Matching 3 3) = Return (products, first, PyFloat total, avg) ∧
    getitem0 (slice_to products 3) = Return first ∧
    (p_currency first = "PLN" → PyFloat 26775 = PyFloat total ∧ 8925%float = avg) ∧
    (p_currency first ≠ "PLN" →
       ∃ ratio, fixture_currencies !! p_currency first = Some ratio ∧
                PyFloat 26775 = PyFloat (total * ratio)%float ∧
                8925%float = (avg * ratio)%float).
Proof.
  apply (conversion_iff_foreign fixture_data fixture_currencies (Matching 3 3)
           (ValuationResult 3 (PyFloat 26775) 8925 "PLN" 1)).
  by vm_compute.
Defined.

(** C3 on the third group of the script: four products, a count of 3. *)
Lemma ignored_products_count_fixture :
  let r := ValuationResult 3 (PyFloat 26775) 8925 "PLN" 1 in
  let count := Z.of_nat (length (filter (λ x, p_matching_id x = 3) fixture_data)) in
  r_ignored_products_count r = count - 3 ∧
  (3 ≤ count ↔ 0 ≤ r_ignored_products_count r) ∧
  (3 = count ↔ r_ignored_products_count r = 0).
Proof.
  apply (ignored_products_count_is_difference fixture_data fixture_currencies
           (Matching 3 3) (ValuationResult 3 (PyFloat 26775) 8925 "PLN" 1)).
  by vm_compute.
Defined.

(** C7 on the third group of the script. *)
Lemma avg_price_is_quotient_fixture :
  ∃ products first ks n,
    Forall2 (λ x k, ext_price x = Return k) (slice_to products 3) ks ∧
    int_to_float 3 = Return n ∧
    pre_conversion fixture_data (Matching 3 3)
    = Return (products, first, PyFloat (foldl PrimFloat.add 0%float ks),
              (foldl PrimFloat.add 0%float ks / n)%float) ∧
    converted fixture_currencies (Matching 3 3) products first
      (PyFloat (foldl PrimFloat.add 0%float ks))
      (foldl PrimFloat.add 0%float ks / n)%float
    = Return (ValuationResult 3 (PyFloat 26775) 8925 "PLN" 1).
Proof.
  apply (avg_price_is_quotient fixture_data fixture_currencies (Matching 3 3)
           (ValuationResult 3 (PyFloat 26775) 8925 "PLN" 1)).
  by vm_compute.
Defined.

(** C4 on the data of the script and a matching of a group that it does not
    have. *)
Lemma invalid_group_raises_fixture :
  let w := world_of fixture_data [Matching 1 2; Matching 4 1] fixture_currencies in
  (∃ e, (calculate_valuation l_data l_matchings l_currencies w).1 = Raise e) ∧
  (∃ e, group_valuation fixture_data fixture_currencies (Matching 4 1) = Raise e).
Proof.
  intros w.
  destruct (invalid_group_raises l_data l_matchings l_currencies w fixture_data
              [Matching 1 2; Matching 4 1] fixture_currencies (Matching 4 1))
    as (Hrun & Hgroup & _); [done|done|done| | |done].
  - apply elem_of_list_here || (right; left).
  - right. by vm_compute.
Defined.



(** C8 on the data of the script, with a matching of a group that it does
    not have between two matchings of groups that it has. *)
Lemma failure_writes_nothing_fixture :
  let w := world_of fixture_data [Matching 1 2; Matching 4 1; Matching 3 3]
             fixture_currencies in
  (calculate_valuation l_data l_matchings l_currencies w).1 = Raise IndexError ∧
  (calculate_and_save l_data l_matchings l_currencies w).1 = Raise IndexError ∧
  files (calculate_and_save l_data l_matchings l_currencies w).2 = files w.
Proof.
  intros w.
  apply (failure_writes_nothing l_data l_matchings l_currencies w fixture_data
           [Matching 1 2; Matching 4 1; Matching 3 3] fixture_currencies
           [Matching 1 2] (Matching 4 1) [Matching 3 3] IndexError);
    [done|done|done|done| |by vm_compute].
  repeat constructor. eexists. by vm_compute.
Defined.

End ValuationSpec.

(** * Further properties of FizzBuzz *)

Module FizzBuzzScript.
Import FizzBuzz FizzBuzzSpec.







Lemma fizzbuzz_length a b out :
  length (fizzbuzz a b out) = (length out + Z.to_nat (b - a + 1))%nat.
Proof.
  unfold fizzbuzz.
  destruct (fizzbuzz_loop (range a (b + 1)) out) as (lines & -> & Hlines).
  rewrite length_app, <- (Forall2_length _ _ _ Hlines), range_length.
  f_equal. lia.
Qed.

(** X3: the script prints only when standard input has two lines that [int]
    converts, and then what [fizzbuzz] prints for the two integers, which is
    [m - n + 1] lines when [n <= m] and nothing otherwise; lines after the
    second are not read.  It ends with [ValueError], and nothing printed, at
    the first of the two lines that does not convert, and with [EOFError],
    and nothing printed, when a line is missing and the line before it, if
    any, converts. *)
Theorem script_outcome py_int stdin out :
  match script py_int stdin out with
  | (None, out') =>
      ∃ line1 line2 rest n m,
        stdin = line1 :: line2 :: rest ∧ py_int line1 = Some n ∧ py_int line2 = Some m ∧
        out' = fizzbuzz n m out ∧
        length out' = (length out + Z.to_nat (m - n + 1))%nat
  | (Some ValueError, out') =>
      out' = out ∧
      ∃ line1 rest, stdin = line1 :: rest ∧
        (py_int line1 = None ∨
         ∃ n line2 rest', py_int line1 = Some n ∧ rest = line2 :: rest' ∧
                          py_int line2 = None)
  | (Some EOFError, out') =>
      out' = out ∧
      (stdin = [] ∨ ∃ line1 n, stdin = [line1] ∧ py_int line1 = Some n)
  end.
Proof.
  unfold script. destruct stdin as [|line1 [|line2 rest]].
  - by split; [|left].
  - destruct (py_int line1) as [n|] eqn:H1.
    + split; [done|]. right. by exists line1, n.
    + split; [done|]. exists line1, []. split; [done|]. by left.
  - destruct (py_int line1) as [n|] eqn:H1.
    + destruct (py_int line2) as [m|] eqn:H2.
      * exists line1, line2, rest, n, m. split_and!; try done. apply fizzbuzz_length.
      * split; [done|]. exists line1, (line2 :: rest). split; [done|].
        right. by exists n, line2, rest.
    + split; [done|]. exists line1, (line2 :: rest). split; [done|]. by left.
Qed.

End FizzBuzzScript.

(** * Further properties of the valuation service *)

Module ValuationMore.
Import Valuation ValuationSpec.

(** ** The loaders *)

(** X4: [load_data] and [load_matchings] return all the rows or none: when
    they return, the list has one record per row, in the order of the rows,
    each converted from its row; when a row does not convert, the rows before
    it converting, they raise what that row raises, and return no list. *)
Theorem loaders_all_or_nothing py_int py_float :
  (∀ rows data,
     load_data py_int py_float rows = Return data →
     length data = length rows ∧
     Forall2 (λ row x, load_data_row py_int py_float row = Return x) rows data) ∧
  (∀ before row after e,
     Forall (λ r, ∃ x, load_data_row py_int py_float r = Return x) before →
     load_data_row py_int py_float row = Raise e →
     load_data py_int py_float (before ++ row :: after) = Raise e) ∧
  (∀ rows matchings,
     load_matchings py_int rows = Return matchings →
     length matchings = length rows ∧
     Forall2 (λ row m, load_matchings_row py_int row = Return m) rows matchings) ∧
  (∀ before row after e,
     Forall (λ r, ∃ m, load_matchings_row py_int r = Return m) before →
     load_matchings_row py_int row = Raise e →
     load_matchings py_int (before ++ row :: after) = Raise e).
Proof.
  unfold load_data, load_matchings. split_and!.
  - intros rows data Hrows%mapM_Return. split; [|done].
    symmetry. by eapply Forall2_length.
  - intros before row after e. apply mapM_first_Raise.
  - intros rows ms Hrows%mapM_Return. split; [|done].
    symmetry. by eapply Forall2_length.
  - intros before row after e. apply mapM_first_Raise.
Qed.

Lemma load_currencies_from_app py_float rows1 rows2 : ∀ cs0,
  load_currencies_from py_float cs0 (rows1 ++ rows2) =
  load_currencies_from py_float cs0 rows1 ≫= λ cs1, load_currencies_from py_float cs1 rows2.
Proof.
  induction rows1 as [|row rows1 IH]; intros cs0; simpl; [done|].
  destruct (load_currencies_row py_float cs0 row) as [cs1|e]; simpl; [apply IH|done].
Qed.

Lemma load_currencies_row_Return py_float cs0 row cs :
  load_currencies_row py_float cs0 row = Return cs ↔
  ∃ c ratio, row !! "currency" = Some c ∧
             row_getitem row "ratio" ≫= py_float = Return ratio ∧
             cs = <[c := ratio]> cs0.
Proof.
  unfold load_currencies_row. rewrite bind_Return. split.
  - intros (c & Hc & (ratio & Hratio & Hcs)%bind_Return).
    unfold row_getitem, dict_getitem in Hc.
    destruct (row !! "currency") as [c'|]; [|done].
    injection Hc as ->. injection Hcs as <-. by exists c, ratio.
  - intros (c & ratio & Hc & Hratio & ->). exists c. split.
    + unfold row_getitem, dict_getitem. by rewrite Hc.
    + by rewrite Hratio.
Qed.

(** A code that no row has keeps what it had. *)
Lemma load_currencies_from_other py_float rows c : ∀ cs0 cs,
  load_currencies_from py_float cs0 rows = Return cs →
  Forall (λ r, r !! "currency" ≠ Some c) rows →
  cs !! c = cs0 !! c.
Proof.
  induction rows as [|row rows IH]; intros cs0 cs; simpl.
  - by intros [= <-].
  - intros (cs1 & Hrow & Hrows)%bind_Return [Hc Hother]%Forall_cons.
    rewrite (IH _ _ Hrows Hother).
    apply load_currencies_row_Return in Hrow as (c' & ratio & Hc' & _ & ->).
    apply lookup_insert_ne. congruence.
Qed.

Lemma load_currencies_from_dom py_float rows c : ∀ cs0 cs,
  load_currencies_from py_float cs0 rows = Return cs →
  is_Some (cs !! c) ↔
  is_Some (cs0 !! c) ∨ ∃ row, row ∈ rows ∧ row !! "currency" = Some c.
Proof.
  induction rows as [|row rows IH]; intros cs0 cs; simpl.
  - intros [= <-]. split; [by left|]. intros [?|(row & Hrow & _)]; [done|].
    by apply elem_of_nil in Hrow.
  - intros (cs1 & Hrow & Hrows)%bind_Return. rewrite (IH _ _ Hrows).
    apply load_currencies_row_Return in Hrow as (c' & ratio & Hc' & _ & ->).
    rewrite lookup_insert_is_Some. split.
    + intros [[<-|[_ ?]]|(row' & Hin & Hcur)].
      * right. exists row. split; [by left|done].
      * by left.
      * right. exists row'. split; [by right|done].
    + intros [?|(row' & Hin & Hcur)].
      * destruct (decide (c' = c)); [by left; left|by left; right].
      * apply elem_of_cons in Hin as [->|Hin].
        -- left. left. congruence.
        -- right. by exists row'.
Qed.

(** X5: the dict that [load_currencies] returns has exactly the codes of the
    rows, and gives for a code the ratio of the last row that has it: a later
    row for a code replaces an earlier one. *)
Theorem load_currencies_last_wins py_float rows cs :
  load_currencies py_float rows = Return cs →
  (∀ c, is_Some (cs !! c) ↔ ∃ row, row ∈ rows ∧ row !! "currency" = Some c) ∧
  (∀ before row after c,
     rows = before ++ row :: after →
     row !! "currency" = Some c →
     Forall (λ r, r !! "currency" ≠ Some c) after →
     ∃ ratio, row_getitem row "ratio" ≫= py_float = Return ratio ∧
              cs !! c = Some ratio).
Proof.
  unfold load_currencies. intros Hload. split.
  - intros c. rewrite (load_currencies_from_dom _ _ c _ _ Hload).
    rewrite lookup_empty. split; [|by right].
    intros [[? [=]]|?]; done.
  - intros before row after c -> Hc Hafter.
    rewrite load_currencies_from_app in Hload.
    apply bind_Return in Hload as (cs1 & _ & Hload). simpl in Hload.
    apply bind_Return in Hload as (cs2 & Hrow & Hrest).
    apply load_currencies_row_Return in Hrow as (c' & ratio & Hc' & Hratio & ->).
    exists ratio. split; [done|].
    rewrite (load_currencies_from_other _ _ c _ _ Hrest Hafter).
    assert (c' = c) as -> by congruence. apply lookup_insert_eq.
Qed.

(** X5 on the rows of the script with a second row for GBP. *)
Lemma load_currencies_last_wins_example :
  ∃ ratio,
    row_getitem {[ "currency" := "GBP"; "ratio" := "2.5" ]} "ratio" ≫= float_of_numeral
    = Return ratio ∧
    <[ "GBP" := 2.5%float ]> fixture_currencies !! "GBP" = Some ratio.
Proof.
  set (row := ({[ "currency" := "GBP"; "ratio" := "2.5" ]} : gmap string string)).
  destruct (load_currencies_last_wins float_of_numeral
              (fixture_currency_rows ++ [row])
              (<[ "GBP" := 2.5%float ]> fixture_currencies)) as [_ Hlast].
  { by vm_compute. }
  apply (Hlast fixture_currency_rows row [] "GBP"); [done|by vm_compute|constructor].
Defined.

(** ** Products of other groups *)

Lemma group_valuation_group data data' cs m :
  filter (λ x, p_matching_id x = m_matching_id m) data
  = filter (λ x, p_matching_id x = m_matching_id m) data' →
  group_valuation data cs m = group_valuation data' cs m.
Proof. intros Hgroup. unfold group_valuation. by rewrite Hgroup. Qed.

Lemma mapM_ext_in {A B} (f g : A → outcome B) l :
  (∀ a, a ∈ l → f a = g a) → mapM f l = mapM g l.
Proof.
  induction l as [|a l IH]; intros Hfg; simpl; [done|].
  rewrite (Hfg a) by by left. rewrite IH; [done|].
  intros a' Ha'. apply Hfg. by right.
Qed.

(** X6: the products whose [matching_id] no matching has never count: with
    them taken out of [data], every group has the same outcome, and so has
    the run. *)
Theorem unmatched_products_ignored data cs ms :
  mapM (group_valuation
          (filter (λ x, p_matching_id x ∈ m_matching_id <$> ms) data) cs) ms
  = mapM (group_valuation data cs) ms.
Proof.
  apply mapM_ext_in. intros m Hm. apply group_valuation_group.
  rewrite list_filter_filter. apply list_filter_iff. intros x. split; [tauto|].
  intros Hx. split; [done|]. rewrite Hx. by apply list_elem_of_fmap_2.
Qed.

(** ** What a group raises *)

Lemma sum_from_total l : ∀ acc,
  (∀ n, acc = PyInt n → n = 0) →
  (∀ x, x ∈ l → ∃ k, ext_price x = Return k) →
  ∃ total, sum_from ext_price acc l = Return total ∧
           (l ≠ [] ∨ (∃ s, acc = PyFloat s) → ∃ t, total = PyFloat t).
Proof.
  induction l as [|x l IH]; intros acc Hacc Hkeys; simpl.
  - exists acc. split; [done|]. by intros [?|?].
  - destruct (Hkeys x) as [k ->]; [by left|]. simpl.
    assert (∃ s, num_add_float acc k = Return s) as [s ->].
    { destruct acc as [n|y]; [|by eexists].
      rewrite (Hacc n eq_refl). exists (0 + k)%float. reflexivity. }
    simpl. destruct (IH (PyFloat s)) as (total & -> & Htotal).
    { by intros n [=]. }
    { intros x' Hx'. apply Hkeys. by right. }
    exists total. split; [done|]. intros _. apply Htotal. right. by exists s.
Qed.

Lemma take_nil_iff {A} (l : list A) n : take n l = [] ↔ n = 0%nat ∨ l = [].
Proof.
  destruct n, l; simpl; split; try done; try (by left); try (by right).
  by intros [?|?].
Qed.

(** The top set is empty for a count of 0, for an empty list, and for a
    negative count that takes the whole list away. *)
Lemma slice_to_nil_iff {A} (l : list A) n :
  slice_to l n = [] ↔ n = 0 ∨ l = [] ∨ n ≤ - Z.of_nat (length l).
Proof.
  unfold slice_to. case_bool_decide; rewrite take_nil_iff.
  - split.
    + intros [?|?]; [right; right; lia|by right; left].
    + intros [?|[?|?]]; [lia|by right|left; lia].
  - split.
    + intros [?|?]; [left; lia|by right; left].
    + intros [?|[?|?]]; [left; lia|by right|].
      destruct l; [by right|simpl in *; lia].
Qed.

(** X8: when the extended prices of a group can be computed, the group
    raises [ZeroDivisionError] exactly when its count is 0, and [IndexError]
    exactly when its count is not 0 and its top set is empty, which is when
    the group has no product or the count is negative and takes them all
    away. *)
Theorem group_error_kinds data cs m :
  let group := filter (λ x, p_matching_id x = m_matching_id m) data in
  let count := Z.of_nat (length group) in
  (∀ x, x ∈ group → ∃ k, ext_price x = Return k) →
  (group_valuation data cs m = Raise ZeroDivisionError ↔ m_top_priced_count m = 0) ∧
  (group_valuation data cs m = Raise IndexError ↔
     m_top_priced_count m ≠ 0 ∧ (count = 0 ∨ m_top_priced_count m ≤ - count)).
Proof.
  intros group count Hkeys.
  destruct (mapM_total ext_price group Hkeys) as [ks Hks].
  assert (∃ products, list_sort_reverse ext_price group = Return products)
    as [products Hsort].
  { unfold list_sort_reverse. rewrite Hks. by eexists. }
  pose proof (list_sort_reverse_perm _ _ _ Hsort) as Hperm.
  pose proof (list_sort_reverse_length _ _ _ Hsort) as Hlen.
  destruct (decide (m_top_priced_count m = 0)) as [Hzero|Hzero].
  { rewrite (zero_count_raises data cs m products Hzero Hsort).
    split; [done|]. split; [done|]. by intros [? _]. }
  set (top := slice_to products (m_top_priced_count m)).
  assert (Htop : top = [] ↔ count = 0 ∨ m_top_priced_count m ≤ - count).
  { unfold top. rewrite slice_to_nil_iff. unfold count. rewrite <- Hlen.
    split.
    - intros [?|[->|?]]; [done|by left|by right].
    - intros [?|?]; [right; left|by right; right].
      destruct products; [done|simpl in *; lia]. }
  assert (Hgv : group_valuation data cs m =
                total_price ← py_sum ext_price top;
                avg_price ← num_truediv total_price (m_top_priced_count m);
                first ← getitem0 top;
                converted cs m products first total_price avg_price).
  { unfold group_valuation. fold group. rewrite Hsort. simpl. fold top.
    destruct (py_sum ext_price top); simpl; [|done].
    destruct (num_truediv _ _); simpl; [|done].
    by destruct (getitem0 top). }
  rewrite Hgv. clear Hgv. destruct top as [|x top'] eqn:Htop'.
  - simpl. rewrite int_truediv_0 by done. simpl.
    split; [done|]. split; [|done]. intros _. split; [done|]. by apply Htop.
  - assert (Htop_keys : ∀ y, y ∈ x :: top' → ∃ k, ext_price y = Return k).
    { intros y Hy. apply Hkeys. rewrite <- Hperm. rewrite <- Htop' in Hy.
      unfold top, slice_to in Hy.
      case_bool_decide; apply elem_of_take in Hy as (i & Hi & _);
        by eapply list_elem_of_lookup_2. }
    destruct (sum_from_total (x :: top') (PyInt 0)) as (total & Hsum & Hfloat);
      [by intros n [= <-]|done|].
    destruct Hfloat as [t ->]; [by left|].
    unfold py_sum. rewrite Hsum. simpl.
    rewrite bool_decide_eq_false_2 by done.
    assert (Hother : ∀ e, e = ZeroDivisionError ∨ e = IndexError →
      (y ← int_to_float (m_top_priced_count m);
       mret (t / y)%float) ≫= (λ avg_price,
         converted cs m products x (PyFloat t) avg_price) ≠ Raise e).
    { intros e He. destruct (int_to_float _) as [n|e'] eqn:Hn; simpl.
      - unfold converted, dict_getitem. case_bool_decide; [|done].
        destruct (cs !! p_currency x); simpl; [done|].
        intros [= <-]. by destruct He.
      - apply int_to_float_Raise in Hn as ->. intros [= <-]. by destruct He. }
    split; split.
    + intros Hraise. by apply Hother in Hraise; [|left].
    + done.
    + intros Hraise. by apply Hother in Hraise; [|right].
    + intros [_ Hempty]. by apply Htop in Hempty.
Qed.

Lemma group_valuation_Raise data cs m e :
  group_valuation data cs m = Raise e →
  e = ZeroDivisionError ∨ e = IndexError ∨ e = KeyError ∨ e = OverflowError.
Proof.
  rewrite group_valuation_stages.
  destruct (pre_conversion data m) as [[[[products first] total] avg]|e'] eqn:Hpre; simpl.
  - unfold converted, dict_getitem. case_bool_decide; [|done].
    destruct (cs !! p_currency first); simpl; [|intros [= <-]; tauto].
    destruct total as [n|x]; simpl; [|done].
    destruct (int_to_float n) eqn:Hn; simpl; [done|].
    intros [= <-]. apply int_to_float_Raise in Hn. tauto.
  - intros [= <-]. revert Hpre. unfold pre_conversion.
    destruct (list_sort_reverse _ _) as [products|e''] eqn:Hsort; simpl.
    2:{ intros [= <-]. apply list_sort_reverse_Raise in Hsort as (x & _ & Hx).
        apply ext_price_Raise in Hx. tauto. }
    destruct (py_sum _ _) as [total|e''] eqn:Hsum; simpl.
    2:{ intros [= <-]. apply sum_from_Raise in Hsum; [tauto|by intros n [= <-]]. }
    destruct (num_truediv _ _) as [avg|e''] eqn:Hdiv; simpl.
    2:{ intros [= <-]. apply num_truediv_Raise in Hdiv. tauto. }
    destruct (getitem0 _) as [first|e''] eqn:Hfirst; simpl; [done|].
    intros [= <-]. destruct (slice_to _ _); simpl in Hfirst; [|done].
    injection Hfirst as <-. tauto.
Qed.

(** X7: on a heap that holds the inputs, a run that fails raises what one
    of its groups raises, and that is one of [ZeroDivisionError],
    [IndexError], [KeyError] and [OverflowError]. *)
Theorem run_raises_group_error data matchings currencies w ds ms cs e :
  heap w !! data = Some (ProductList ds) →
  heap w !! matchings = Some (MatchingList ms) →
  heap w !! currencies = Some (CurrencyDict cs) →
  (calculate_valuation data matchings currencies w).1 = Raise e →
  (∃ m, m ∈ ms ∧ group_valuation ds cs m = Raise e) ∧
  (e = ZeroDivisionError ∨ e = IndexError ∨ e = KeyError ∨ e = OverflowError).
Proof.
  intros Hdata Hms Hcur Hraise.
  pose proof (calculate_valuation_run _ _ _ _ _ _ _ Hdata Hms Hcur) as Hrun.
  destruct (mapM (group_valuation ds cs) ms) as [rs|e'] eqn:Hall.
  { destruct Hrun as (results & w' & Hrun & _). by rewrite Hrun in Hraise. }
  destruct Hrun as (w' & Hrun). rewrite Hrun in Hraise. injection Hraise as ->.
  apply mapM_Raise in Hall as (m & Hm & He).
  split; [by exists m|]. by eapply group_valuation_Raise.
Qed.

(** ** Counts out of range *)

Lemma group_valuation_ignored data cs m r :
  group_valuation data cs m = Return r →
  ∃ products first total avg,
    pre_conversion data m = Return (products, first, total, avg) ∧
    r_ignored_products_count r = Z.of_nat (length products) - m_top_priced_count m ∧
    r_currency r = "PLN" ∧
    r_matching_id r = m_matching_id m.
Proof.
  intros (products & first & total & avg & Hpre & Hconv)%group_valuation_Return.
  exists products, first, total, avg. split; [done|].
  unfold converted in Hconv. case_bool_decide as Hcur.
  - destruct (dict_getitem _ _); [|done]. simpl in Hconv.
    destruct (num_mul_float _ _); [|done]. by injection Hconv as <-.
  - by injection Hconv as <-.
Qed.

(** X9: a negative count is not refused.  When the computation succeeds
    with a negative count, the top set is the ranking without its last
    [- top_priced_count] products, of which at least one is left, and
    [ignored_products_count] is greater than the number of products of the
    group. *)
Theorem negative_count_drops_last data cs m r :
  group_valuation data cs m = Return r →
  m_top_priced_count m < 0 →
  let count := Z.of_nat (length (filter (λ x, p_matching_id x = m_matching_id m) data)) in
  ∃ products,
    list_sort_reverse ext_price
      (filter (λ x, p_matching_id x = m_matching_id m) data) = Return products ∧
    0 < count + m_top_priced_count m ∧
    slice_to products (m_top_priced_count m)
    = take (Z.to_nat (count + m_top_priced_count m)) products ∧
    r_ignored_products_count r = count - m_top_priced_count m ∧
    count < r_ignored_products_count r.
Proof.
  intros Hr Hneg count.
  destruct (group_valuation_ignored _ _ _ _ Hr)
    as (products & first & total & avg & Hpre & Hignored & _).
  apply pre_conversion_Return in Hpre as (Hsort & _ & _ & Hfirst).
  pose proof (list_sort_reverse_length _ _ _ Hsort) as Hlen.
  exists products. split; [done|].
  assert (Hslice : slice_to products (m_top_priced_count m)
                   = take (Z.to_nat (count + m_top_priced_count m)) products).
  { unfold slice_to, count. rewrite bool_decide_eq_true_2 by done. by rewrite Hlen. }
  split_and!; [|done|unfold count; lia|unfold count; lia].
  rewrite Hslice in Hfirst.
  destruct (Z.to_nat (count + m_top_priced_count m)) eqn:Hkept; [done|lia].
Qed.

(** X10: a count above the size of the group is not refused either.  The top
    set is then the whole ranking, so that two such counts give the same
    total, and [ignored_products_count] is zero or negative. *)
Theorem count_beyond_group data cs m m' r r' :
  let count := Z.of_nat (length (filter (λ x, p_matching_id x = m_matching_id m) data)) in
  m_matching_id m' = m_matching_id m →
  count ≤ m_top_priced_count m → count ≤ m_top_priced_count m' →
  group_valuation data cs m = Return r →
  group_valuation data cs m' = Return r' →
  (∃ products,
     list_sort_reverse ext_price
       (filter (λ x, p_matching_id x = m_matching_id m) data) = Return products ∧
     slice_to products (m_top_priced_count m) = products ∧
     slice_to products (m_top_priced_count m') = products) ∧
  r_total_price r' = r_total_price r ∧
  r_ignored_products_count r ≤ 0 ∧ r_ignored_products_count r' ≤ 0.
Proof.
  intros count Hid Hm Hm' Hr Hr'.
  assert (Hwhole : ∀ (products : list product) n,
            Z.of_nat (length products) ≤ n → slice_to products n = products).
  { intros products n Hn. unfold slice_to. rewrite bool_decide_eq_false_2 by lia.
    apply take_ge. lia. }
  apply group_valuation_Return in Hr as (products & first & total & avg & Hpre & Hconv).
  apply group_valuation_Return in Hr' as (products' & first' & total' & avg' & Hpre' & Hconv').
  apply pre_conversion_Return in Hpre as (Hsort & Hsum & Hdiv & Hfirst).
  apply pre_conversion_Return in Hpre' as (Hsort' & Hsum' & Hdiv' & Hfirst').
  rewrite Hid, Hsort in Hsort'. injection Hsort' as <-.
  pose proof (list_sort_reverse_length _ _ _ Hsort) as Hlen.
  rewrite Hwhole in Hsum, Hfirst by (fold count in Hlen; lia).
  rewrite Hwhole in Hsum', Hfirst' by (fold count in Hlen; lia).
  rewrite Hsum in Hsum'. injection Hsum' as <-.
  rewrite Hfirst in Hfirst'. injection Hfirst' as <-.
  split.
  { exists products. split; [done|]. split; apply Hwhole; fold count in Hlen; lia. }
  unfold converted in Hconv, Hconv'. fold count in Hlen.
  case_bool_decide.
  - destruct (dict_getitem _ _); [|done]. simpl in *.
    destruct (num_mul_float _ _); [|done].
    injection Hconv as <-. injection Hconv' as <-. simpl. split; [done|lia].
  - injection Hconv as <-. injection Hconv' as <-. simpl. split; [done|lia].
Qed.

(** ** The table of the ratios *)

(** X11: the ratio of the base currency is never read. *)
Theorem base_ratio_unused data cs m x :
  group_valuation data (<["PLN" := x]> cs) m = group_valuation data cs m ∧
  group_valuation data (delete "PLN" cs) m = group_valuation data cs m.
Proof.
  rewrite !group_valuation_stages.
  destruct (pre_conversion data m) as [[[[products first] total] avg]|e]; simpl; [|done].
  unfold converted, dict_getitem. case_bool_decide as Hcur; [|done].
  by rewrite lookup_insert_ne, lookup_delete_ne.
Qed.

(** ** The currencies of a group *)

Section relabel.
Context (g : product → product).
Hypothesis g_priced : ∀ x,
  p_price (g x) = p_price x ∧ p_quantity (g x) = p_quantity x ∧
  p_matching_id (g x) = p_matching_id x.

Lemma ext_price_relabel x : ext_price (g x) = ext_price x.
Proof. unfold ext_price. destruct (g_priced x) as (-> & -> & _). done. Qed.

Lemma filter_relabel id (data : list product) :
  filter (λ x, p_matching_id x = id) (g <$> data)
  = g <$> filter (λ x, p_matching_id x = id) data.
Proof.
  induction data as [|x data IH]; [done|].
  rewrite fmap_cons, !filter_cons. destruct (g_priced x) as (_ & _ & ->).
  case_decide; [rewrite fmap_cons|]; by rewrite IH.
Qed.

Lemma mapM_relabel (l : list product) : mapM ext_price (g <$> l) = mapM ext_price l.
Proof.
  induction l as [|x l IH]; [done|].
  change (mapM ext_price (g <$> x :: l))
    with (y ← ext_price (g x); k ← mapM ext_price (g <$> l); mret (y :: k)).
  by rewrite ext_price_relabel, IH.
Qed.

Lemma insert_desc_relabel k a (z : list (float * product)) :
  insert_desc k (g a) (prod_map id g <$> z) = prod_map id g <$> insert_desc k a z.
Proof.
  induction z as [|[k' a'] z IH]; [done|].
  rewrite fmap_cons. change (prod_map id g (k', a')) with (k', g a').
  cbn [insert_desc]. destruct (k <? k')%float; [|done].
  by rewrite IH, fmap_cons.
Qed.

Lemma sort_desc_relabel (z : list (float * product)) :
  sort_desc (prod_map id g <$> z) = prod_map id g <$> sort_desc z.
Proof.
  induction z as [|[k a] z IH]; [done|].
  rewrite fmap_cons.
  change (sort_desc (prod_map id g (k, a) :: (prod_map id g <$> z)))
    with (insert_desc k (g a) (sort_desc (prod_map id g <$> z))).
  change (sort_desc ((k, a) :: z)) with (insert_desc k a (sort_desc z)).
  by rewrite IH, insert_desc_relabel.
Qed.

Lemma zip_relabel (ks : list float) (l : list product) :
  zip ks (g <$> l) = prod_map id g <$> zip ks l.
Proof.
  revert l. induction ks as [|k ks IH]; intros [|x l]; [done..|].
  rewrite fmap_cons. cbn [zip zip_with]. by rewrite IH.
Qed.

Lemma list_sort_reverse_relabel (l : list product) :
  list_sort_reverse ext_price (g <$> l)
  = (λ products : list product, g <$> products) <$> list_sort_reverse ext_price l.
Proof.
  unfold list_sort_reverse. rewrite mapM_relabel.
  destruct (mapM ext_price l) as [ks|e]; [|done]. simpl.
  rewrite zip_relabel, sort_desc_relabel. f_equal.
  rewrite <- !list_fmap_compose. done.
Qed.

Lemma slice_to_fmap {A B} (f : A → B) (l : list A) n : slice_to (f <$> l) n = f <$> slice_to l n.
Proof. unfold slice_to. rewrite length_fmap. case_bool_decide; by rewrite fmap_take. Qed.

Lemma sum_from_relabel (l : list product) acc :
  sum_from ext_price acc (g <$> l) = sum_from ext_price acc l.
Proof.
  revert acc. induction l as [|x l IH]; intros acc; [done|]. simpl.
  rewrite ext_price_relabel. destruct (ext_price x); [|done]. simpl.
  destruct (num_add_float acc _); [|done]. simpl. apply IH.
Qed.

Lemma pre_conversion_relabel (data : list product) m :
  pre_conversion (g <$> data) m
  = (λ s : list product * product * pynum * float,
       (g <$> s.1.1.1, g s.1.1.2, s.1.2, s.2)) <$> pre_conversion data m.
Proof.
  unfold pre_conversion. rewrite filter_relabel, list_sort_reverse_relabel.
  destruct (list_sort_reverse _ _) as [products|e]; [|done]. simpl.
  rewrite slice_to_fmap. unfold py_sum. rewrite sum_from_relabel.
  destruct (sum_from _ _ _) as [total|e]; [|done]. simpl.
  destruct (num_truediv _ _) as [avg|e]; [|done]. simpl.
  by destruct (slice_to products _).
Qed.

End relabel.

(** X12: of the currencies of a group only that of the first product of the
    top set is read.  A change of the currencies of the products that keeps
    that one changes no result, whatever the new currencies are. *)
Theorem other_currencies_unread (g : product → product) data cs m :
  (∀ x, p_price (g x) = p_price x ∧ p_quantity (g x) = p_quantity x ∧
        p_matching_id (g x) = p_matching_id x) →
  (∀ products first total avg,
     pre_conversion data m = Return (products, first, total, avg) →
     p_currency (g first) = p_currency first) →
  group_valuation (g <$> data) cs m = group_valuation data cs m.
Proof.
  intros Hg Hfirst. rewrite !group_valuation_stages, pre_conversion_relabel by done.
  destruct (pre_conversion data m) as [[[[products first] total] avg]|e] eqn:Hpre; [|done].
  simpl. unfold converted. rewrite length_fmap. by rewrite (Hfirst _ _ _ _ eq_refl).
Qed.

(** ** The top set *)

Lemma list_sort_reverse_descending data products :
  list_sort_reverse ext_price data = Return products →
  (∀ x k, x ∈ products → ext_price x = Return k → is_nan k = false) →
  descending products.
Proof.
  intros (ks & Hks & ->)%list_sort_reverse_Return Hnan.
  assert (Hkeyed : keyed ext_price (sort_desc (zip ks data))).
  { unfold keyed. rewrite sort_desc_perm. by apply keyed_zip. }
  assert (Hfinite : Forall (λ x : float * product, is_nan x.1 = false)
                      (sort_desc (zip ks data))).
  { apply Forall_forall. intros [k x] Hx. simpl. apply (Hnan x k).
    - apply list_elem_of_fmap. by exists (k, x).
    - unfold keyed in Hkeyed. rewrite Forall_forall in Hkeyed. by apply (Hkeyed (k, x)). }
  apply keyed_descending; [done|done|].
  apply sort_desc_sorted. by rewrite <- (sort_desc_perm (zip ks data)).
Qed.

(** X13: the top set holds the most expensive products.  It is a prefix of the
    ranking, and when no extended price of the group is NaN no product left
    out of it has a greater extended price than a product in it. *)
Theorem top_set_dominates data m products :
  list_sort_reverse ext_price
    (filter (λ x, p_matching_id x = m_matching_id m) data) = Return products →
  (∀ x k, x ∈ products → ext_price x = Return k → is_nan k = false) →
  ∃ rest,
    products = slice_to products (m_top_priced_count m) ++ rest ∧
    ∀ x y kx ky,
      x ∈ slice_to products (m_top_priced_count m) → y ∈ rest →
      ext_price x = Return kx → ext_price y = Return ky →
      (ky <=? kx)%float = true.
Proof.
  intros Hsort Hnan.
  pose proof (list_sort_reverse_descending _ _ Hsort Hnan) as Hdesc.
  assert (∃ n, slice_to products (m_top_priced_count m) = take n products) as [n Hn].
  { unfold slice_to. case_bool_decide; by eexists. }
  rewrite Hn. exists (drop n products). split; [by rewrite take_drop|].
  intros x y kx ky Hx Hy Hkx Hky.
  apply elem_of_take in Hx as (i & Hi & Hlt).
  apply list_elem_of_lookup_1 in Hy as [j Hj]. rewrite lookup_drop in Hj.
  apply (Hdesc i (n + j)%nat x y kx ky); [lia|done..].
Qed.

(** ** The order of the rows *)

Lemma SFltb_eqb x y :
  x ≠ S754_nan → y ≠ S754_nan → SFltb x y = false → SFltb y x = false → SFeqb x y = true.
Proof.
  sf_unfold.
  destruct x as [sx|sx| |sx mx ex], y as [sy|sy| |sy my ey]; simpl; try done;
    intros _ _; sf_cases.
  all: subst; rewrite ?Z.compare_refl, ?Pos.compare_refl in *; simpl in *; try done.
Qed.

Lemma ltb_eqb (x y : float) :
  is_nan x = false → is_nan y = false →
  (x <? y)%float = false → (y <? x)%float = false → (x =? y)%float = true.
Proof.
  unfold is_nan. rewrite !FloatAxioms.eqb_spec, !FloatAxioms.ltb_spec.
  intros Hx Hy. apply SFltb_eqb; intros Hnan; by rewrite Hnan in *.
Qed.

Lemma zip_keys {A} (key : A → outcome float) (l : list A) ks :
  Forall2 (λ a k, key a = Return k) l ks →
  zip ks l = (λ a, (key_of key a, a)) <$> l.
Proof.
  induction 1 as [|a k l ks Hk _ IH]; [done|].
  rewrite fmap_cons, <- IH. unfold key_of. by rewrite Hk.
Qed.

Lemma list_sort_reverse_Permutation {A} (key : A → outcome float) (l l' : list A) :
  l ≡ₚ l' →
  (∀ a, a ∈ l → ∃ k, key a = Return k ∧ is_nan k = false) →
  (∀ a b ka kb, a ∈ l → b ∈ l → key a = Return ka → key b = Return kb →
                (ka =? kb)%float = true → a = b) →
  list_sort_reverse key l' = list_sort_reverse key l.
Proof.
  intros Hperm Hkeys Hdistinct.
  assert (Hall : ∀ l0, l0 ≡ₚ l → ∃ ks, Forall2 (λ a k, key a = Return k) l0 ks).
  { intros l0 Hl0. destruct (mapM_total key l0) as [ks Hks].
    - intros a Ha. rewrite Hl0 in Ha. destruct (Hkeys a Ha) as (k & Hk & _). eauto.
    - exists ks. by apply mapM_Return. }
  destruct (Hall l) as [ks Hks]; [done|].
  destruct (Hall l') as [ks' Hks']; [done|].
  assert (Hsorted : ∀ l0, l0 ≡ₚ l →
            StronglySorted key_ge (sort_desc ((λ a, (key_of key a, a)) <$> l0))).
  { intros l0 Hl0. apply sort_desc_sorted. apply Forall_fmap, Forall_forall.
    intros a Ha. rewrite Hl0 in Ha. simpl. destruct (Hkeys a Ha) as (k & Hk & Hnan).
    unfold key_of. by rewrite Hk. }
  unfold list_sort_reverse.
  rewrite (proj2 (mapM_Return _ _ _) Hks), (proj2 (mapM_Return _ _ _) Hks'). simpl.
  rewrite (zip_keys _ _ _ Hks), (zip_keys _ _ _ Hks'). do 2 f_equal.
  apply (StronglySorted_unique_strong key_ge); [|by apply Hsorted..|].
  - intros [k1 a1] [k2 a2] H1 H2 H12 H21.
    rewrite sort_desc_perm in H1, H2.
    apply list_elem_of_fmap in H1 as (a1' & [= -> ->] & Ha1).
    apply list_elem_of_fmap in H2 as (a2' & [= -> ->] & Ha2).
    rewrite <- Hperm in Ha1.
    destruct (Hkeys _ Ha1) as (k1 & Hk1 & Hnan1).
    destruct (Hkeys _ Ha2) as (k2 & Hk2 & Hnan2).
    unfold key_ge in H12, H21. simpl in H12, H21. unfold key_of in *.
    rewrite Hk1, Hk2 in *.
    assert (a1' = a2') as ->; [|congruence].
    apply (Hdistinct a1' a2' k1 k2); [done..|]. by apply ltb_eqb.
  - by rewrite !sort_desc_perm, Hperm.
Qed.

(** X14: the order of the rows of the data matters only among products of
    equal extended price.  When the extended prices of a group can all be
    computed, none is NaN and no two products of the group have equal ones,
    the result of the group is the same for every order of the products. *)
Theorem row_order_irrelevant data data' cs m :
  data ≡ₚ data' →
  (∀ x, x ∈ data → p_matching_id x = m_matching_id m →
        ∃ k, ext_price x = Return k ∧ is_nan k = false) →
  (∀ x y kx ky, x ∈ data → y ∈ data →
        p_matching_id x = m_matching_id m → p_matching_id y = m_matching_id m →
        ext_price x = Return kx → ext_price y = Return ky →
        (kx =? ky)%float = true → x = y) →
  group_valuation data' cs m = group_valuation data cs m.
Proof.
  intros Hperm Hkeys Hdistinct. unfold group_valuation.
  rewrite (list_sort_reverse_Permutation ext_price
             (filter (λ x, p_matching_id x = m_matching_id m) data)
             (filter (λ x, p_matching_id x = m_matching_id m) data')).
  - done.
  - by rewrite Hperm.
  - intros x [Hid Hx]%list_elem_of_filter. by apply Hkeys.
  - intros x y kx ky [Hidx Hx]%list_elem_of_filter [Hidy Hy]%list_elem_of_filter.
    by apply Hdistinct.
Qed.

(** ** The run *)

Lemma calculate_valuation_fresh data matchings currencies w results w' :
  calculate_valuation data matchings currencies w = (Return results, w') →
  results = fresh (dom (heap w)).
Proof.
  unfold calculate_valuation. intros Hrun.
  rewrite (M_bind_Return _ (alloc _) w (fresh (dom (heap w)))
             (World (<[fresh (dom (heap w)) := ResultList []]> (heap w)) (files w)))
    in Hrun by done.
  unfold mbind, M_bind in Hrun.
  destruct (read_matchings _ _) as [[ms|e] w1]; [|done].
  destruct (for_each _ _ _) as [[[]|e] w2]; [|done].
  by injection Hrun as <- _.
Qed.

(** X15: every call builds a list of its own.  The list that
    [calculate_valuation] returns is not an object of the heap of before the
    call; a second call returns another list with the same results and leaves
    the first one as it is. *)
Theorem each_call_builds_its_list data matchings currencies w ds ms cs rs :
  heap w !! data = Some (ProductList ds) →
  heap w !! matchings = Some (MatchingList ms) →
  heap w !! currencies = Some (CurrencyDict cs) →
  mapM (group_valuation ds cs) ms = Return rs →
  ∃ results1 w1 results2 w2,
    calculate_valuation data matchings currencies w = (Return results1, w1) ∧
    calculate_valuation data matchings currencies w1 = (Return results2, w2) ∧
    heap w !! results1 = None ∧
    results1 ≠ results2 ∧
    heap w2 !! results1 = Some (ResultList rs) ∧
    heap w2 !! results2 = Some (ResultList rs).
Proof.
  intros Hdata Hms Hcur Hall.
  pose proof (calculate_valuation_run _ _ _ _ _ _ _ Hdata Hms Hcur) as Hrun1.
  rewrite Hall in Hrun1. destruct Hrun1 as (results1 & w1 & Hrun1 & Hres1).
  assert (Hkept : ∀ l o, heap w !! l = Some o → heap w1 !! l = Some o).
  { intros l o Hl.
    eapply (run_preserved (dom (heap w)));
      [apply calculate_valuation_preserves|done|exact Hrun1| |done].
    by apply elem_of_dom. }
  pose proof (calculate_valuation_run _ _ _ _ _ _ _
                (Hkept _ _ Hdata) (Hkept _ _ Hms) (Hkept _ _ Hcur)) as Hrun2.
  rewrite Hall in Hrun2. destruct Hrun2 as (results2 & w2 & Hrun2 & Hres2).
  exists results1, w1, results2, w2. split_and!; [done|done| | | |done].
  - rewrite (calculate_valuation_fresh _ _ _ _ _ _ Hrun1). apply fresh_lookup.
  - rewrite (calculate_valuation_fresh _ _ _ _ _ _ Hrun2). by eapply fresh_ne.
  - eapply (run_preserved (dom (heap w1)));
      [apply calculate_valuation_preserves|done|exact Hrun2| |done].
    by apply elem_of_dom.
Qed.

(** X16: when every group succeeds, the script leaves in
    [top_products.csv] the header and the results of the groups, one row per
    matching in the order of [matchings], in place of what the file held;
    no other file is written, and the objects of the heap are as before. *)
Theorem success_writes_results data matchings currencies w ds ms cs rs :
  heap w !! data = Some (ProductList ds) →
  heap w !! matchings = Some (MatchingList ms) →
  heap w !! currencies = Some (CurrencyDict cs) →
  mapM (group_valuation ds cs) ms = Return rs →
  let end_ := calculate_and_save data matchings currencies w in
  end_.1 = Return () ∧
  files end_.2 !! "top_products.csv" = Some (CsvFile fieldnames rs) ∧
  length rs = length ms ∧
  (∀ path, path ≠ "top_products.csv" → files end_.2 !! path = files w !! path) ∧
  (∀ l o, heap w !! l = Some o → heap end_.2 !! l = Some o).
Proof.
  intros Hdata Hms Hcur Hall. simpl.
  pose proof (calculate_valuation_run _ _ _ _ _ _ _ Hdata Hms Hcur) as Hrun.
  rewrite Hall in Hrun. destruct Hrun as (results & w1 & Hrun & Hres).
  destruct (calculate_valuation_preserves (dom (heap w)) data matchings currencies w)
    as [Hfiles Hheap]; [done|].
  rewrite Hrun in Hfiles, Hheap. simpl in Hfiles, Hheap.
  unfold calculate_and_save. rewrite (M_bind_Return _ _ _ _ _ Hrun).
  unfold save_results. rewrite (M_bind_Return _ _ _ _ _ (read_results_run _ _ _ Hres)).
  simpl. rewrite Hfiles. split_and!.
  - done.
  - apply lookup_insert_eq.
  - apply mapM_Return in Hall. symmetry. by eapply Forall2_length.
  - intros path Hpath. by apply lookup_insert_ne.
  - intros l o Hl. rewrite Hheap; [done|]. by apply elem_of_dom.
Qed.


(** ** The properties on the input of the script *)

(** X8 on the third group of the script with a count of -4, which takes its
    four products away. *)
Lemma group_error_kinds_fixture :
  (group_valuation fixture_data fixture_currencies (Matching 3 (-4)) = Raise ZeroDivisionError
   ↔ -4 = 0) ∧
  (group_valuation fixture_data fixture_currencies (Matching 3 (-4)) = Raise IndexError
   ↔ -4 ≠ 0 ∧
     (Z.of_nat (length (filter (λ x, p_matching_id x = 3) fixture_data)) = 0 ∨
      -4 ≤ - Z.of_nat (length (filter (λ x, p_matching_id x = 3) fixture_data)))).
Proof.
  apply (group_error_kinds fixture_data fixture_currencies (Matching 3 (-4))).
  intros x Hx. vm_compute in Hx.
  repeat (apply elem_of_cons in Hx as [->|Hx]);
    [eexists; vm_compute; reflexivity..|by apply elem_of_nil in Hx].
Defined.

(** X7 on the data of the script and a second matching with a count of 0. *)
Lemma run_raises_group_error_fixture :
  let w := world_of fixture_data [Matching 1 2; Matching 2 0] fixture_currencies in
  (∃ m, m ∈ [Matching 1 2; Matching 2 0] ∧
        group_valuation fixture_data fixture_currencies m = Raise ZeroDivisionError) ∧
  (ZeroDivisionError = ZeroDivisionError ∨ ZeroDivisionError = IndexError ∨
   ZeroDivisionError = KeyError ∨ ZeroDivisionError = OverflowError).
Proof.
  intros w.
  apply (run_raises_group_error l_data l_matchings l_currencies w fixture_data
           [Matching 1 2; Matching 2 0] fixture_currencies ZeroDivisionError);
    [done|done|done|by vm_compute].
Defined.

(** X9 on the third group of the script with a count of -1. *)
Lemma negative_count_drops_last_fixture :
  ∃ products,
    list_sort_reverse ext_price (filter (λ x, p_matching_id x = 3) fixture_data)
    = Return products ∧
    0 < Z.of_nat (length (filter (λ x, p_matching_id x = 3) fixture_data)) + -1 ∧
    slice_to products (-1)
    = take (Z.to_nat (Z.of_nat (length (filter (λ x, p_matching_id x = 3) fixture_data)) + -1))
        products ∧
    r_ignored_products_count (ValuationResult 3 (PyFloat 26775) (-26775) "PLN" 5)
    = Z.of_nat (length (filter (λ x, p_matching_id x = 3) fixture_data)) - -1 ∧
    Z.of_nat (length (filter (λ x, p_matching_id x = 3) fixture_data))
    < r_ignored_products_count (ValuationResult 3 (PyFloat 26775) (-26775) "PLN" 5).
Proof.
  apply (negative_count_drops_last fixture_data fixture_currencies (Matching 3 (-1))
           (ValuationResult 3 (PyFloat 26775) (-26775) "PLN" 5)); [|done].
  vm_compute. reflexivity.
Defined.

(** X10 on the second group of the script, of two products, with the counts 2
    and 4. *)
Lemma count_beyond_group_fixture :
  (∃ products,
     list_sort_reverse ext_price (filter (λ x, p_matching_id x = 2) fixture_data)
     = Return products ∧
     slice_to products 2 = products ∧ slice_to products 4 = products) ∧
  r_total_price (ValuationResult 2 (PyFloat 24500) 6125 "PLN" (-2))
  = r_total_price (ValuationResult 2 (PyFloat 24500) 12250 "PLN" 0) ∧
  r_ignored_products_count (ValuationResult 2 (PyFloat 24500) 12250 "PLN" 0) ≤ 0 ∧
  r_ignored_products_count (ValuationResult 2 (PyFloat 24500) 6125 "PLN" (-2)) ≤ 0.
Proof.
  apply (count_beyond_group fixture_data fixture_currencies (Matching 2 2) (Matching 2 4)
           (ValuationResult 2 (PyFloat 24500) 12250 "PLN" 0)
           (ValuationResult 2 (PyFloat 24500) 6125 "PLN" (-2)));
    [done|by vm_compute|by vm_compute|by vm_compute|by vm_compute].
Defined.

(** X12 on the first group of the script, whose top set is product 9, in GBP,
    and product 3: the currency of product 3 is changed to one that the table
    does not have. *)
Lemma other_currencies_unread_fixture :
  let g := λ x, if bool_decide (p_id x = 3)
                then Product (p_id x) (p_price x) "USD" (p_quantity x) (p_matching_id x)
                else x in
  group_valuation (g <$> fixture_data) fixture_currencies (Matching 1 2)
  = group_valuation fixture_data fixture_currencies (Matching 1 2).
Proof.
  intros g.
  apply (other_currencies_unread g fixture_data fixture_currencies (Matching 1 2)).
  - intros x. unfold g. by case_bool_decide.
  - intros products first total avg Hpre. vm_compute in Hpre.
    by injection Hpre as <- <- <- <-.
Defined.

(** X15 on the input of the script. *)
Lemma each_call_builds_its_list_fixture :
  ∃ results1 w1 results2 w2,
    calculate_valuation l_data l_matchings l_currencies fixture_world = (Return results1, w1) ∧
    calculate_valuation l_data l_matchings l_currencies w1 = (Return results2, w2) ∧
    heap fixture_world !! results1 = None ∧
    results1 ≠ results2 ∧
    heap w2 !! results1 = Some (ResultList fixture_results) ∧
    heap w2 !! results2 = Some (ResultList fixture_results).
Proof.
  apply (each_call_builds_its_list l_data l_matchings l_currencies fixture_world
           fixture_data fixture_matchings fixture_currencies fixture_results);
    [done|done|done|by vm_compute].
Defined.

(** X16 on the input of the script. *)
Lemma success_writes_results_fixture :
  let end_ := calculate_and_save l_data l_matchings l_currencies fixture_world in
  end_.1 = Return () ∧
  files end_.2 !! "top_products.csv" = Some (CsvFile fieldnames fixture_results) ∧
  length fixture_results = length fixture_matchings ∧
  (∀ path, path ≠ "top_products.csv" → files end_.2 !! path = files fixture_world !! path) ∧
  (∀ l o, heap fixture_world !! l = Some o → heap end_.2 !! l = Some o).
Proof.
  apply (success_writes_results l_data l_matchings l_currencies fixture_world
           fixture_data fixture_matchings fixture_currencies fixture_results);
    [done|done|done|by vm_compute].
Defined.

(** X14 on the third group of the script, with the rows in reverse order. *)
Lemma row_order_irrelevant_fixture :
  group_valuation (reverse fixture_data) fixture_currencies (Matching 3 3)
  = group_valuation fixture_data fixture_currencies (Matching 3 3).
Proof.
  apply (row_order_irrelevant fixture_data (reverse fixture_data) fixture_currencies
           (Matching 3 3)).
  - symmetry. apply reverse_Permutation.
  - intros x Hx _.
    repeat (apply elem_of_cons in Hx as [->|Hx]);
      [eexists; split; vm_compute; reflexivity..|by apply elem_of_nil in Hx].
  - intros x y kx ky Hx Hy Hidx Hidy Hkx Hky Heq.
    repeat (apply elem_of_cons in Hx as [->|Hx]); [..|by apply elem_of_nil in Hx];
      try discriminate Hidx;
      (repeat (apply elem_of_cons in Hy as [->|Hy]); [..|by apply elem_of_nil in Hy]);
      try discriminate Hidy; try reflexivity;
      vm_compute in Hkx, Hky; injection Hkx as <-; injection Hky as <-;
      vm_compute in Heq; discriminate Heq.
Defined.

(** X13 on the third group of the script. *)
Lemma top_set_dominates_fixture :
  ∃ rest,
    fixture_ranking_3 = slice_to fixture_ranking_3 3 ++ rest ∧
    ∀ x y kx ky,
      x ∈ slice_to fixture_ranking_3 3 → y ∈ rest →
      ext_price x = Return kx → ext_price y = Return ky →
      (ky <=? kx)%float = true.
Proof.
  apply (top_set_dominates fixture_data (Matching 3 3) fixture_ranking_3).
  - by vm_compute.
  - intros x k Hx Hk.
    repeat (apply elem_of_cons in Hx as [->|Hx]);
      [vm_compute in Hk; injection Hk as <-; reflexivity..|by apply elem_of_nil in Hx].
Defined.

End ValuationMore.
